(** * mkdocs-fastsearch: validation of the [lang] option and selection of
      language support files

    Shallow embedding of [mkdocs_fastsearch/__init__.py]:
    [LangOption.get_lunr_supported_lang], [LangOption.run_validation],
    the [lang] and [min_search_length] options of [_PluginConfig],
    [SearchPlugin.on_config] and the file selection of
    [SearchPlugin.on_post_build].

    Python values are a small universe of objects ([pyobj]: [None], [bool],
    [int], [str], [list] and [bytes] values); a [str] is a
    sequence of code points below 256, on which [str.lower] is the map
    [lower] below.  Exceptions are the [Raise] results of the [result]
    monad.  The directory [base_path/lunr-language] is an oracle
    [isfile] on file names relative to it. *)

From stdpp Require Import base strings list gmap.
From Stdlib Require Import Ascii ZArith.

#[local] Set Warnings "-clear-no-such-hyp".

(** ** Python objects, exceptions *)

#[warnings="-register-all"] Inductive pyobj : Type :=
  | PyNone
  | PyBool (b : bool)
  | PyInt (z : Z)
  | PyStr (s : string)
  | PyList (l : list pyobj)
  | PyBytes (b : list Byte.byte).

Inductive exn : Type :=
  | ValidationError (msg : string)
  | AttributeError
  | TypeError
  | ValueError
  | AssertionError.

Inductive result (A : Type) : Type :=
  | Ok (a : A)
  | Raise (e : exn).
Arguments Ok {A} a.
Arguments Raise {A} e.

Module PyMonad.
Definition bind {A B} (m : result A) (k : A → result B) : result B :=
  match m with
  | Ok a => k a
  | Raise e => Raise e
  end.
End PyMonad.

#[global] Instance result_ret : MRet result := @Ok.
#[global] Instance result_bind : MBind result := λ A B k m, PyMonad.bind m k.

(** [isinstance(value, str)], [isinstance(value, list)],
    [isinstance(value, int)] ([bool] is a subclass of [int]). *)
Definition isinstance_str (value : pyobj) : bool :=
  match value with PyStr _ => true | _ => false end.

Definition isinstance_list (value : pyobj) : bool :=
  match value with PyList _ => true | _ => false end.

Definition isinstance_int (value : pyobj) : bool :=
  match value with PyInt _ | PyBool _ => true | _ => false end.

Definition isinstance_bytes (value : pyobj) : bool :=
  match value with PyBytes _ => true | _ => false end.

(** Truth value of an object, as [if], [not] and [and] test it. *)
Definition truthy (value : pyobj) : bool :=
  match value with
  | PyNone => false
  | PyBool b => b
  | PyInt z => bool_decide (z ≠ 0%Z)
  | PyStr s => bool_decide (s ≠ "")
  | PyList [] => false
  | PyList (_ :: _) => true
  | PyBytes [] => false
  | PyBytes (_ :: _) => true
  end.

(** [obj == s] for a [str] [s]: only an equal [str] compares equal. *)
Definition eq_str (obj : pyobj) (s : string) : bool :=
  match obj with
  | PyStr t => bool_decide (t = s)
  | _ => false
  end.

(** ** Strings: [str.lower], [str.split], the f-string of the file name *)

Definition lower_char (c : ascii) : ascii :=
  let n := nat_of_ascii c in
  if bool_decide (65 ≤ n ≤ 90)
     || (bool_decide (192 ≤ n ≤ 222) && bool_decide (n ≠ 215))
  then ascii_of_nat (n + 32)
  else c.

Fixpoint lower (s : string) : string :=
  match s with
  | EmptyString => EmptyString
  | String c s' => String (lower_char c) (lower s')
  end.

(** [s.split(sep)] for a one-character separator: never the empty list. *)
Fixpoint split (sep : ascii) (s : string) : list string :=
  match s with
  | EmptyString => [""]
  | String c s' =>
      if bool_decide (c = sep) then "" :: split sep s'
      else match split sep s' with
           | [] => [String c ""]
           | part :: parts => String c part :: parts
           end
  end.

(** [f'lunr.{lang}.js'] *)
Definition lunr_file (lang : string) : string :=
  "lunr." +:+ lang +:+ ".js".

(** ** Python list operations on the language list *)

(** [x in value] for a [str] [x]. *)
Definition contains (x : string) (value : list pyobj) : bool :=
  existsb (λ obj, eq_str obj x) value.

(** [value.remove(x)]: drops the first element equal to [x], raises
    [ValueError] when there is none. *)
Fixpoint list_remove (x : string) (value : list pyobj) : result (list pyobj) :=
  match value with
  | [] => Raise ValueError
  | obj :: value' =>
      if eq_str obj x then Ok value'
      else value'' ← list_remove x value'; Ok (obj :: value'')
  end.

(** ** [LangOption] *)

(** [fallback = {'uk': 'ru'}] *)
Definition fallback : gmap string string := {[ "uk" := "ru" ]}.

(** [d.get(key, dflt)] *)
Definition dict_get (d : gmap string string) (key dflt : string) : string :=
  default dflt (d !! key).

(** One pass of the loop body on a part, up to the [isfile] test. *)
Definition resolve_part (lang_part : string) : string :=
  let lang_part := lower lang_part in
  dict_get fallback lang_part lang_part.

Section LangOption.

(** [os.path.isfile(os.path.join(base_path, 'lunr-language', name))] *)
Variable isfile : string → bool.

(** The [for lang_part in ...] loop of [get_lunr_supported_lang]; falling
    off the end returns [None]. *)
Fixpoint first_supported (parts : list string) : option string :=
  match parts with
  | [] => None
  | lang_part :: parts' =>
      let lang_part := lower lang_part in
      let lang_part := dict_get fallback lang_part lang_part in
      if isfile (lunr_file lang_part) then Some lang_part
      else first_supported parts'
  end.

Definition get_lunr_supported_lang (lang : string) : option string :=
  first_supported (split "_" lang).

(** [not lang_detected]: [None] and the empty string are false. *)
Definition not_detected (lang_detected : option string) : bool :=
  match lang_detected with
  | None => true
  | Some s => bool_decide (s = "")
  end.

(** The loop [for lang in list(value)] of [run_validation]: [snapshot] is
    what remains of the copy, [value] the list being mutated.  An element
    without a [split] method raises [AttributeError]; [bytes] has one, which
    raises [TypeError] for the [str] separator. *)
Fixpoint validate_loop (snapshot value : list pyobj) : result (list pyobj) :=
  match snapshot with
  | [] => Ok value
  | lang :: snapshot' =>
      if negb (eq_str lang "en") then
        match lang with
        | PyStr s =>
            let lang_detected := get_lunr_supported_lang s in
            if not_detected lang_detected then
              value ← list_remove s value;
              let value :=
                if negb (contains "en" value) then value ++ [PyStr "en"]
                else value in
              validate_loop snapshot' value
            else if bool_decide (lang_detected ≠ Some s) then
              value ← list_remove s value;
              validate_loop snapshot' (value ++ [PyStr (default "" lang_detected)])
            else validate_loop snapshot' value
        | PyBytes _ => Raise TypeError
        | _ => Raise AttributeError
        end
      else validate_loop snapshot' value
  end.

Definition run_validation (value : pyobj) : result (list pyobj) :=
  let value := if isinstance_str value then PyList [value] else value in
  match value with
  | PyList l => validate_loop l l
  | _ => Raise (ValidationError "Expected a list of language codes.")
  end.

End LangOption.

(** ** [_PluginConfig] *)

(** Lines 49 and 51 instantiate classes of [mkdocs.config.config_options].
    That module belongs to the mkdocs library and is not under [src/]: the
    definitions of this part that carry the name of one of its classes are
    modelled from the mkdocs library, not translated from this repository. *)

(** [type(value)] and how an f-string prints it. *)
Inductive pytype : Type := Tnone | Tbool | Tint | Tstr | Tlist | Tbytes.

#[global] Instance pytype_eq_dec : EqDecision pytype.
Proof. solve_decision. Defined.

Definition type_of (value : pyobj) : pytype :=
  match value with
  | PyNone => Tnone
  | PyBool _ => Tbool
  | PyInt _ => Tint
  | PyStr _ => Tstr
  | PyList _ => Tlist
  | PyBytes _ => Tbytes
  end.

Definition type_repr (t : pytype) : string :=
  match t with
  | Tnone => "<class 'NoneType'>"
  | Tbool => "<class 'bool'>"
  | Tint => "<class 'int'>"
  | Tstr => "<class 'str'>"
  | Tlist => "<class 'list'>"
  | Tbytes => "<class 'bytes'>"
  end.

(** [isinstance(value, type_)]: [bool] is a subclass of [int]. *)
Definition isinstance (value : pyobj) (type_ : pytype) : bool :=
  bool_decide (type_of value = type_)
  || (bool_decide (type_ = Tint) && bool_decide (type_of value = Tbool)).

(** Modelled from the mkdocs library (not under [src/]):
    [Type(type_).run_validation], for an option without [length].  The
    value is returned when it is an instance of [type_]; otherwise
    [ValidationError] is raised with the message
    [f"Expected type: {type_} but received: {type(value)}"]. *)
Definition Type_run_validation (type_ : pytype) (value : pyobj) : result pyobj :=
  if negb (isinstance value type_)
  then Raise (ValidationError
                ("Expected type: " +:+ type_repr type_
                 +:+ " but received: " +:+ type_repr (type_of value)))
  else Ok value.

(** Modelled from the mkdocs library (not under [src/]):
    [BaseConfigOption.run_validation], which a class that does not override
    it inherits: the value is returned as it is. *)
Definition BaseConfigOption_run_validation (value : pyobj) : result pyobj :=
  Ok value.

(** Modelled from the mkdocs library (not under [src/]):
    [OptionallyRequired.validate].  [None] is replaced by the default when
    there is one; without a default it is returned when the option is not
    required and rejected when it is; every other value, and the default,
    goes through [run_validation]. *)
Definition OptionallyRequired_validate
    (default : option pyobj) (required : bool)
    (run_validation : pyobj → result pyobj) (value : pyobj) : result pyobj :=
  match value with
  | PyNone =>
      match default with
      | Some value => run_validation value
      | None =>
          if negb required then Ok PyNone
          else Raise (ValidationError "Required configuration not provided.")
      end
  | _ => run_validation value
  end.

(** Line 49, [lang = c.OptionallyRequired(LangOption())]: the instance of
    [LangOption] is the first positional argument of [OptionallyRequired],
    its [default]; the option validates with the [run_validation] that
    [OptionallyRequired] inherits, not with [LangOption.run_validation].
    [default] stands for the instance. *)
Definition lang_validate (default : pyobj) : pyobj → result pyobj :=
  OptionallyRequired_validate (Some default) false
    BaseConfigOption_run_validation.

(** Line 51, [min_search_length = c.Type(int, default=3)]. *)
Definition min_search_length_validate : pyobj → result pyobj :=
  OptionallyRequired_validate (Some (PyInt 3)) false (Type_run_validation Tint).

(** ** [SearchPlugin.on_post_build]: the language support files to copy *)

(** ['search_index_only' in config['theme'] and
     config['theme']['search_index_only']], as a truth value. *)
Definition search_index_only (theme : gmap string pyobj) : bool :=
  match theme !! "search_index_only" with
  | Some v => truthy v
  | None => false
  end.

(** The list [files] built by [on_post_build] from [self.config['lang']]
    ([None] when the option is unset); each name is then copied from
    [lunr-language] to the output directory. *)
Definition on_post_build (theme : gmap string pyobj) (lang : option (list string))
  : result (list string) :=
  match lang with
  | None => Raise AssertionError
  | Some lang =>
      if negb (search_index_only theme) then
        let files := [] in
        let files :=
          if bool_decide (1 < length lang) || negb (bool_decide ("en" ∈ lang))
          then files ++ ["lunr.stemmer.support.js"] else files in
        let files :=
          if bool_decide (1 < length lang)
          then files ++ ["lunr.multi.js"] else files in
        let files :=
          if bool_decide ("ja" ∈ lang) || bool_decide ("jp" ∈ lang)
          then files ++ ["tinyseg.js"] else files in
        let files :=
          foldl (λ files lang,
                   if bool_decide (lang ≠ "en")
                   then files ++ [lunr_file lang] else files)
                files lang in
        Ok files
      else Ok []
  end.

(** The files [on_post_build] selects, rule by rule. *)
Definition support_files (lang : list string) : list string :=
  (if bool_decide (1 < length lang ∨ "en" ∉ lang)
   then ["lunr.stemmer.support.js"] else [])
  ++ (if bool_decide (1 < length lang) then ["lunr.multi.js"] else [])
  ++ (if bool_decide ("ja" ∈ lang ∨ "jp" ∈ lang) then ["tinyseg.js"] else [])
  ++ (lunr_file <$> List.filter (λ l, bool_decide (l ≠ "en")) lang).

(** ** [SearchPlugin.on_config] *)

(** The theme of the site configuration: the variables that [in] and
    [[]] read, the set [static_templates] and the list [dirs]. *)
Record Theme : Type := {
  theme_vars : gmap string pyobj;
  static_templates : gset string;
  dirs : list string
}.

(** The part of the site configuration [on_config] touches. *)
Record Config : Type := {
  theme : Theme;
  extra_javascript : list pyobj
}.

(** What a handler does: it returns, or a lookup raises [KeyError]. *)
Inductive outcome (A : Type) : Type :=
  | Returns (a : A)
  | KeyError (key : string).
Arguments Returns {A} a.
Arguments KeyError {A} key.

(** [key in theme] and [theme[key]] *)
Definition theme_contains (t : Theme) (key : string) : bool :=
  bool_decide (is_Some (theme_vars t !! key)).

Definition theme_getitem (t : Theme) (key : string) : outcome pyobj :=
  match theme_vars t !! key with
  | Some v => Returns v
  | None => KeyError key
  end.

(** [on_config], with [templates] the value of
    [os.path.join(base_path, 'templates')]. *)
Definition on_config (templates : string) (config : Config) : outcome Config :=
  let include_search_page :=
    if theme_contains (theme config) "include_search_page"
    then match theme_getitem (theme config) "include_search_page" with
         | Returns v => Returns (truthy v)
         | KeyError key => KeyError key
         end
    else Returns false in
  match include_search_page with
  | KeyError key => KeyError key
  | Returns add_page =>
      let theme1 :=
        if add_page
        then {| theme_vars := theme_vars (theme config);
                static_templates :=
                  static_templates (theme config) ∪ {[ "search.html" ]};
                dirs := dirs (theme config) |}
        else theme config in
      let index_only :=
        if theme_contains theme1 "search_index_only"
        then match theme_getitem theme1 "include_search_page" with
             | Returns v => Returns (truthy v)
             | KeyError key => KeyError key
             end
        else Returns false in
      match index_only with
      | KeyError key => KeyError key
      | Returns index_only =>
          if negb index_only then
            let path := templates in
            let theme2 :=
              {| theme_vars := theme_vars theme1;
                 static_templates := static_templates theme1;
                 dirs := dirs theme1 ++ [path] |} in
            let extra :=
              if negb (contains "search/main.js" (extra_javascript config))
              then extra_javascript config ++ [PyStr "search/main.js"]
              else extra_javascript config in
            Returns {| theme := theme2; extra_javascript := extra |}
          else
            Returns {| theme := theme1;
                       extra_javascript := extra_javascript config |}
      end
  end.

(** What [on_config] leaves behind, apart from the variables of the
    theme: the static templates, the template directories and the scripts. *)
Definition config_effects (config : Config)
  : gset string * list string * list pyobj :=
  (static_templates (theme config), dirs (theme config), extra_javascript config).

Definition outcome_map {A B} (f : A → B) (o : outcome A) : outcome B :=
  match o with
  | Returns a => Returns (f a)
  | KeyError key => KeyError key
  end.

(** The configuration with the theme variable [key] set to [v]. *)
Definition with_theme_var (key : string) (v : pyobj) (config : Config) : Config :=
  {| theme := {| theme_vars := <[key := v]> (theme_vars (theme config));
                 static_templates := static_templates (theme config);
                 dirs := dirs (theme config) |};
     extra_javascript := extra_javascript config |}.

(** ** Concrete directories, for the examples *)

Definition disk (names : gset string) : string → bool :=
  λ name, bool_decide (name ∈ names).

Definition lunr_language : gset string :=
  {[ "lunr.de.js"; "lunr.fr.js"; "lunr.ja.js"; "lunr.jp.js"; "lunr.ru.js";
     "lunr.multi.js"; "lunr.stemmer.support.js"; "tinyseg.js" ]}.

(** ** What [run_validation] does to one code, and to a list of codes *)

Inductive fate : Type :=
  | Kept
  | Dropped
  | Switched (lang_detected : string).

Section Fate.

Variable isfile : string → bool.

(** The branch of the loop body taken for the code [lang]. *)
Definition fate_of (lang : string) : fate :=
  if bool_decide (lang = "en") then Kept
  else match get_lunr_supported_lang isfile lang with
       | None => Dropped
       | Some d =>
           if bool_decide (d = "") then Dropped
           else if bool_decide (d = lang) then Kept
           else Switched d
       end.

Definition keeps (lang : string) : bool :=
  match fate_of lang with Kept => true | _ => false end.

(** The codes appended while the codes [todo] are visited, after [app];
    [en] tells whether ['en'] is among the codes of the input. *)
Definition append_step (en : bool) (app : list string) (lang : string)
  : list string :=
  match fate_of lang with
  | Kept => app
  | Dropped => if en || bool_decide ("en" ∈ app) then app else app ++ ["en"]
  | Switched d => app ++ [d]
  end.

Definition appended (en : bool) (app todo : list string) : list string :=
  foldl (append_step en) app todo.

(** The list [run_validation] returns for the codes [codes]: the kept
    codes in their order, then the appended ones. *)
Definition validated (codes : list string) : list string :=
  List.filter keeps codes ++ appended (bool_decide ("en" ∈ codes)) [] codes.

(** A part of a code is unsupported when its resolved name has no file. *)
Definition unsupported (part : string) : Prop :=
  isfile (lunr_file (resolve_part part)) = false.

(** A code is supported when it is ['en'] or has its file. *)
Definition supported (lang : string) : Prop :=
  lang = "en" ∨ isfile (lunr_file lang) = true.

End Fate.

(** Two directories agree on the file of every part of the code [lang]. *)
Definition agree_on (isfile isfile' : string → bool) (lang : string) : Prop :=
  ∀ part, part ∈ split "_" lang →
          isfile (lunr_file (resolve_part part))
          = isfile' (lunr_file (resolve_part part)).

(** * Properties *)

(** ** Strings *)

Lemma lower_char_idem c : lower_char (lower_char c) = lower_char c.
Proof. destruct c as [[] [] [] [] [] [] [] []]; vm_compute; reflexivity. Qed.

Lemma lower_char_sep c : lower_char c = "_"%char → c = "_"%char.
Proof.
  destruct c as [[] [] [] [] [] [] [] []]; vm_compute; intros H;
    first [reflexivity | discriminate H].
Qed.

Lemma lower_idem s : lower (lower s) = lower s.
Proof. induction s as [|c s IH]; simpl; [done|]. by rewrite lower_char_idem, IH. Qed.

Lemma split_nonempty sep s : split sep s ≠ [].
Proof.
  destruct s as [|c s]; simpl; [done|].
  case_bool_decide; [done|]. by destruct (split sep s).
Qed.

Lemma split_lower s : split "_" (lower s) = lower <$> split "_" s.
Proof.
  induction s as [|c s IH]; simpl; [done|].
  rewrite IH. repeat case_bool_decide; subst.
  - done.
  - exfalso. eauto using lower_char_sep.
  - done.
  - pose proof (split_nonempty "_" s). by destruct (split "_" s).
Qed.

(** A part of a split holds no separator: splitting it again gives it back. *)
Lemma split_part sep s part : part ∈ split sep s → split sep part = [part].
Proof.
  revert part. induction s as [|c s IH]; simpl; intros part Hin.
  - apply list_elem_of_singleton in Hin. by subst.
  - case_bool_decide as Hc.
    + apply elem_of_cons in Hin as [->|Hin]; [done|by apply IH].
    + pose proof (split_nonempty sep s) as Hne.
      destruct (split sep s) as [|p ps]; [done|].
      apply elem_of_cons in Hin as [->|Hin].
      * simpl. rewrite bool_decide_eq_false_2 by done.
        rewrite (IH p) by left. done.
      * apply IH. by right.
Qed.

Lemma dict_get_fallback x :
  dict_get fallback x x = if bool_decide (x = "uk") then "ru" else x.
Proof.
  unfold dict_get, fallback. case_bool_decide as Hx.
  - subst. by rewrite lookup_singleton_eq.
  - by rewrite lookup_singleton_ne.
Qed.

Lemma resolve_part_split p :
  split "_" p = [p] → split "_" (resolve_part p) = [resolve_part p].
Proof.
  intros Hp. unfold resolve_part. rewrite dict_get_fallback.
  case_bool_decide; [done|]. by rewrite split_lower, Hp.
Qed.

Lemma resolve_part_idem p : resolve_part (resolve_part p) = resolve_part p.
Proof.
  unfold resolve_part. rewrite !dict_get_fallback.
  destruct (decide (lower p = "uk")) as [Hp|Hp].
  - rewrite (bool_decide_eq_true_2 _ Hp). reflexivity.
  - rewrite (bool_decide_eq_false_2 _ Hp), lower_idem.
    by rewrite (bool_decide_eq_false_2 _ Hp).
Qed.

(** ** Resolution of one code *)

Section Resolution.

Variable isfile : string → bool.

Lemma first_supported_None parts :
  first_supported isfile parts = None ↔ Forall (unsupported isfile) parts.
Proof.
  induction parts as [|p parts IH]; simpl.
  - split; [constructor|done].
  - fold (resolve_part p). destruct (isfile (lunr_file (resolve_part p))) eqn:Hp.
    + split; [done|]. intros Hall. apply Forall_cons_1 in Hall as [Hu _].
      unfold unsupported in Hu. congruence.
    + rewrite IH. split; [by constructor|]. by intros [_ ?]%Forall_cons_1.
Qed.

Lemma first_supported_Some parts d :
  first_supported isfile parts = Some d ↔
  ∃ pre p post, parts = pre ++ p :: post ∧ Forall (unsupported isfile) pre ∧
                d = resolve_part p ∧ isfile (lunr_file d) = true.
Proof.
  induction parts as [|p parts IH]; simpl.
  - split; [done|]. intros (pre & q & post & Heq & _). by destruct pre.
  - fold (resolve_part p). destruct (isfile (lunr_file (resolve_part p))) eqn:Hp.
    + split.
      * intros [= <-]. exists [], p, parts. by repeat split.
      * intros (pre & q & post & Heq & Hpre & -> & Hq).
        destruct pre as [|p' pre]; simplify_eq/=; [done|].
        apply Forall_cons_1 in Hpre as [Hu _]. unfold unsupported in Hu.
        congruence.
    + rewrite IH. split.
      * intros (pre & q & post & -> & Hpre & -> & Hq).
        exists (p :: pre), q, post. repeat split; [|done].
        by constructor.
      * intros (pre & q & post & Heq & Hpre & -> & Hq).
        destruct pre as [|p' pre]; simplify_eq/=; [congruence|].
        apply Forall_cons_1 in Hpre as [_ Hpre]. by exists pre, q, post.
Qed.

Lemma first_supported_lower parts :
  first_supported isfile (lower <$> parts) = first_supported isfile parts.
Proof.
  induction parts as [|p parts IH]; [done|].
  rewrite fmap_cons. cbn [first_supported]. by rewrite lower_idem, IH.
Qed.

Lemma get_lunr_supported_lang_lower lang :
  get_lunr_supported_lang isfile (lower lang) = get_lunr_supported_lang isfile lang.
Proof.
  unfold get_lunr_supported_lang.
  by rewrite split_lower, first_supported_lower.
Qed.

(** What resolution returns is a part of the code, resolved, with a file;
    it holds no separator and resolves to itself. *)
Lemma get_lunr_supported_lang_Some lang d :
  get_lunr_supported_lang isfile lang = Some d →
  isfile (lunr_file d) = true ∧ split "_" d = [d] ∧ resolve_part d = d.
Proof.
  intros (pre & p & post & Hsplit & _ & -> & Hfile)%first_supported_Some.
  split; [done|]. split; [|apply resolve_part_idem].
  apply resolve_part_split, (split_part "_" lang).
  rewrite Hsplit. apply elem_of_app. right. left.
Qed.

Lemma get_lunr_supported_lang_fixed lang d :
  get_lunr_supported_lang isfile lang = Some d → get_lunr_supported_lang isfile d = Some d.
Proof.
  intros (Hfile & Hsplit & Hres)%get_lunr_supported_lang_Some.
  unfold get_lunr_supported_lang. rewrite Hsplit. simpl.
  fold (resolve_part d). by rewrite Hres, Hfile.
Qed.

Lemma fate_of_en : fate_of isfile "en" = Kept.
Proof. reflexivity. Qed.

Lemma fate_of_Switched lang d :
  fate_of isfile lang = Switched d ↔
  lang ≠ "en" ∧ get_lunr_supported_lang isfile lang = Some d ∧ d ≠ "" ∧ d ≠ lang.
Proof.
  unfold fate_of. case_bool_decide as Hen.
  - split; [done|]. by intros [? _].
  - destruct (get_lunr_supported_lang isfile lang) as [d'|]; [|naive_solver].
    repeat case_bool_decide; naive_solver.
Qed.

Lemma fate_of_Dropped lang :
  fate_of isfile lang = Dropped ↔
  lang ≠ "en" ∧ not_detected (get_lunr_supported_lang isfile lang) = true.
Proof.
  unfold fate_of, not_detected. case_bool_decide as Hen.
  - split; [done|]. by intros [? _].
  - destruct (get_lunr_supported_lang isfile lang) as [d'|]; [|naive_solver].
    repeat case_bool_decide; naive_solver.
Qed.

Lemma fate_of_Kept lang :
  fate_of isfile lang = Kept ↔
  lang = "en" ∨ (lang ≠ "" ∧ get_lunr_supported_lang isfile lang = Some lang).
Proof.
  unfold fate_of. case_bool_decide as Hen; [naive_solver|].
  destruct (get_lunr_supported_lang isfile lang) as [d'|]; [|naive_solver].
  repeat case_bool_decide; naive_solver.
Qed.

Lemma fate_of_Kept_supported lang : fate_of isfile lang = Kept → supported isfile lang.
Proof.
  intros [->|[_ Hget]]%fate_of_Kept; [by left|right].
  by apply get_lunr_supported_lang_Some in Hget as [? _].
Qed.

(** The code a switch appends is kept by a later pass. *)
Lemma fate_of_Switched_Kept lang d : fate_of isfile lang = Switched d → fate_of isfile d = Kept.
Proof.
  intros (_ & Hget & Hd & _)%fate_of_Switched. apply fate_of_Kept. right.
  eauto using get_lunr_supported_lang_fixed.
Qed.

End Resolution.

(** ** The loop of [run_validation] on a list of codes *)

Section Validation.

Variable isfile : string → bool.

Lemma contains_strs x codes :
  contains x (PyStr <$> codes) = bool_decide (x ∈ codes).
Proof.
  unfold contains. induction codes as [|a codes IH].
  - symmetry. apply bool_decide_eq_false. apply not_elem_of_nil.
  - rewrite fmap_cons. cbn [existsb eq_str]. rewrite IH.
    repeat case_bool_decide; simpl; try done; exfalso; set_solver.
Qed.

Lemma list_remove_strs x kept rest :
  x ∉ kept →
  list_remove x (PyStr <$> (kept ++ x :: rest)) = Ok (PyStr <$> (kept ++ rest)).
Proof.
  induction kept as [|a kept IH]; intros Hx;
    cbn [List.app]; rewrite fmap_cons; cbn [list_remove eq_str].
  - by rewrite bool_decide_eq_true_2.
  - rewrite bool_decide_eq_false_2 by set_solver.
    rewrite IH by set_solver. done.
Qed.

(** One turn of the loop, by the fate of the code visited. *)
Lemma validate_loop_cons lang snapshot value :
  validate_loop isfile (PyStr lang :: snapshot) value =
  match fate_of isfile lang with
  | Kept => validate_loop isfile snapshot value
  | Dropped =>
      value ← list_remove lang value;
      validate_loop isfile snapshot
        (if contains "en" value then value else value ++ [PyStr "en"])
  | Switched d =>
      value ← list_remove lang value;
      validate_loop isfile snapshot (value ++ [PyStr d])
  end.
Proof.
  unfold fate_of. cbn [validate_loop eq_str].
  case_bool_decide as Hen; [done|]. cbn [negb].
  destruct (get_lunr_supported_lang isfile lang) as [d|]; cbn [not_detected].
  - case_bool_decide as Hd.
    + destruct (list_remove lang value) as [v|]; simpl; [|done].
      by destruct (contains "en" v).
    + destruct (decide (d = lang)) as [->|Hne].
      * by rewrite bool_decide_eq_false_2, bool_decide_eq_true_2 by naive_solver.
      * by rewrite bool_decide_eq_true_2, bool_decide_eq_false_2 by naive_solver.
  - destruct (list_remove lang value) as [v|]; simpl; [|done].
    by destruct (contains "en" v).
Qed.

Lemma validate_loop_strs en todo : ∀ kept app,
  Forall (λ lang, fate_of isfile lang = Kept) kept →
  en = bool_decide ("en" ∈ kept ++ todo) →
  validate_loop isfile (PyStr <$> todo) (PyStr <$> (kept ++ todo ++ app)) =
  Ok (PyStr <$> (kept ++ List.filter (keeps isfile) todo
                      ++ appended isfile en app todo)).
Proof.
  induction todo as [|lang todo IH]; intros kept app Hkept Hen; [done|].
  rewrite fmap_cons, validate_loop_cons.
  change (appended isfile en app (lang :: todo))
    with (appended isfile en (append_step isfile en app lang) todo).
  cbn [List.filter]. unfold append_step.
  assert (fate_of isfile lang ≠ Kept → (lang ∉ kept) ∧ lang ≠ "en") as Hout.
  { intros Hf. split; [|by intros ->].
    intros Hin. by eapply Forall_forall in Hkept. }
  assert (keeps isfile lang = match fate_of isfile lang with
                              | Kept => true | _ => false end) as -> by done.
  destruct (fate_of isfile lang) as [| |d] eqn:Hf.
  - replace (kept ++ (lang :: todo) ++ app)
      with ((kept ++ [lang]) ++ todo ++ app)
      by (by rewrite <-(assoc_L (++))).
    rewrite (IH (kept ++ [lang]) app).
    + by rewrite <-(assoc_L (++)).
    + apply Forall_app. split; [done|]. by constructor.
    + by rewrite <-(assoc_L (++)).
  - destruct Hout as [Hnotin Hne]; [done|].
    cbn [List.app]. rewrite list_remove_strs by done.
    cbn [mbind result_bind PyMonad.bind].
    rewrite contains_strs.
    assert (en = bool_decide ("en" ∈ kept ++ todo)) as Hen'.
    { rewrite Hen. apply bool_decide_ext. set_solver. }
    replace (bool_decide ("en" ∈ kept ++ todo ++ app))
      with (en || bool_decide ("en" ∈ app)).
    2:{ rewrite Hen'. repeat case_bool_decide; simpl; try done; exfalso; set_solver. }
    destruct (en || bool_decide ("en" ∈ app)).
    + by apply IH.
    + rewrite <-(IH kept (app ++ ["en"])) by done.
      by rewrite !fmap_app, !(assoc_L (++)).
  - destruct Hout as [Hnotin Hne]; [done|].
    cbn [List.app]. rewrite list_remove_strs by done.
    cbn [mbind result_bind PyMonad.bind].
    rewrite <-(IH kept (app ++ [d])).
    + by rewrite !fmap_app, !(assoc_L (++)).
    + done.
    + rewrite Hen. apply bool_decide_ext. set_solver.
Qed.

(** [run_validation] on a list of codes returns [validated]. *)
Lemma run_validation_strs codes :
  run_validation isfile (PyList (PyStr <$> codes))
  = Ok (PyStr <$> validated isfile codes).
Proof.
  unfold run_validation. cbn [isinstance_str].
  pose proof (validate_loop_strs (bool_decide ("en" ∈ codes)) codes [] []) as H.
  rewrite app_nil_r in H. apply H; [constructor|done].
Qed.

Lemma run_validation_str lang :
  run_validation isfile (PyStr lang) = run_validation isfile (PyList [PyStr lang]).
Proof. reflexivity. Qed.

(** The loop returns only when every code of the copy is a [str]. *)
Lemma validate_loop_Ok snapshot : ∀ value out,
  validate_loop isfile snapshot value = Ok out →
  ∃ codes, snapshot = PyStr <$> codes.
Proof.
  induction snapshot as [|lang snapshot IH]; intros value out Hrun.
  - by exists [].
  - destruct lang as [| | |s| |]; try discriminate Hrun.
    rewrite validate_loop_cons in Hrun.
    assert (∃ value', validate_loop isfile snapshot value' = Ok out) as [v Hv].
    { destruct (fate_of isfile s); [by eexists| |];
        (destruct (list_remove s value) as [v|]; [|discriminate Hrun]);
        by eexists. }
    apply IH in Hv as [codes ->]. by exists (s :: codes).
Qed.

(** An accepted value is a code or a list of codes. *)
Lemma run_validation_Ok value out :
  run_validation isfile value = Ok out →
  ∃ codes, (value = PyList (PyStr <$> codes) ∨ ∃ lang, value = PyStr lang ∧ codes = [lang])
           ∧ out = PyStr <$> validated isfile codes.
Proof.
  intros Hrun. destruct value as [| | |s|l|]; try discriminate Hrun.
  - exists [s]. split; [by eauto|].
    pose proof (run_validation_strs [s]) as Hs.
    change (run_validation isfile (PyStr s)
            = Ok (PyStr <$> validated isfile [s])) in Hs.
    congruence.
  - pose proof Hrun as [codes ->]%validate_loop_Ok. exists codes.
    split; [by left|]. rewrite run_validation_strs in Hrun. congruence.
Qed.

End Validation.

(** ** The validated list *)

Section Validated.

Variable isfile : string → bool.

Lemma keeps_Kept lang : keeps isfile lang = true ↔ fate_of isfile lang = Kept.
Proof. unfold keeps. destruct (fate_of isfile lang); naive_solver. Qed.

Lemma elem_of_kept lang codes :
  lang ∈ List.filter (keeps isfile) codes ↔
  lang ∈ codes ∧ fate_of isfile lang = Kept.
Proof.
  rewrite <-keeps_Kept, !list_elem_of_In, List.filter_In. done.
Qed.

(** What is appended extends [app], by ['en'] or by switched codes. *)
Lemma appended_extends en todo : ∀ app,
  ∃ extra, appended isfile en app todo = app ++ extra ∧
           ∀ x, x ∈ extra →
                x = "en" ∨ ∃ lang, lang ∈ todo ∧ fate_of isfile lang = Switched x.
Proof.
  induction todo as [|lang todo IH]; intros app.
  - exists []. split; [by rewrite app_nil_r|]. by intros x ?%elem_of_nil.
  - change (appended isfile en app (lang :: todo))
      with (appended isfile en (append_step isfile en app lang) todo).
    destruct (IH (append_step isfile en app lang)) as (extra & -> & Hextra).
    assert (∀ x, x ∈ extra → x = "en" ∨
              ∃ lang', lang' ∈ lang :: todo ∧ fate_of isfile lang' = Switched x)
      as Hextra'.
    { intros x [->|(l & ? & ?)]%Hextra; [by left|right].
      exists l. split; [by right|done]. }
    unfold append_step. destruct (fate_of isfile lang) as [| |d] eqn:Hf.
    + by exists extra.
    + destruct (en || bool_decide ("en" ∈ app)); [by exists extra|].
      exists ("en" :: extra). split; [by rewrite <-(assoc_L (++))|].
      intros x [->|?]%elem_of_cons; [by left|by apply Hextra'].
    + exists (d :: extra). split; [by rewrite <-(assoc_L (++))|].
      intros x [->|?]%elem_of_cons; [|by apply Hextra'].
      right. exists lang. split; [left|done].
Qed.

(** A switched code is appended. *)
Lemma appended_Switched en todo lang d : ∀ app,
  lang ∈ todo → fate_of isfile lang = Switched d →
  d ∈ appended isfile en app todo.
Proof.
  induction todo as [|lang' todo IH]; intros app Hin Hf.
  - by apply elem_of_nil in Hin.
  - change (appended isfile en app (lang' :: todo))
      with (appended isfile en (append_step isfile en app lang') todo).
    apply elem_of_cons in Hin as [<-|Hin]; [|by apply IH].
    destruct (appended_extends en todo (append_step isfile en app lang))
      as (extra & -> & _).
    unfold append_step. rewrite Hf. set_solver.
  Qed.

(** After a dropped code, ['en'] is in the input or appended. *)
Lemma appended_Dropped todo lang : ∀ app,
  lang ∈ todo → fate_of isfile lang = Dropped →
  "en" ∈ appended isfile false app todo.
Proof.
  induction todo as [|lang' todo IH]; intros app Hin Hf.
  - by apply elem_of_nil in Hin.
  - change (appended isfile false app (lang' :: todo))
      with (appended isfile false (append_step isfile false app lang') todo).
    apply elem_of_cons in Hin as [<-|Hin]; [|by apply IH].
    destruct (appended_extends false todo (append_step isfile false app lang))
      as (extra & -> & _).
    unfold append_step. rewrite Hf. cbn [orb].
    case_bool_decide; set_solver.
Qed.

(** Every validated code is one a later pass keeps. *)
Lemma validated_Kept codes lang :
  lang ∈ validated isfile codes → fate_of isfile lang = Kept.
Proof.
  unfold validated.
  destruct (appended_extends (bool_decide ("en" ∈ codes)) codes [])
    as (extra & -> & Hextra).
  intros [[_ ?]%elem_of_kept|[->|(l & _ & Hl)]%Hextra]%elem_of_app;
    eauto using fate_of_Switched_Kept.
Qed.

Lemma validated_Dropped codes lang :
  lang ∈ codes → fate_of isfile lang = Dropped →
  (lang ∉ validated isfile codes) ∧ "en" ∈ validated isfile codes.
Proof.
  intros Hin Hf. split.
  - intros Hk%validated_Kept. congruence.
  - unfold validated. apply elem_of_app. case_bool_decide as Hen.
    + left. by apply elem_of_kept.
    + right. eauto using appended_Dropped.
Qed.

Lemma validated_Switched codes lang d :
  lang ∈ codes → fate_of isfile lang = Switched d →
  (lang ∉ validated isfile codes) ∧
  d ∈ appended isfile (bool_decide ("en" ∈ codes)) [] codes.
Proof.
  intros Hin Hf. split.
  - intros Hk%validated_Kept. congruence.
  - eauto using appended_Switched.
Qed.

Lemma validated_nonempty codes : codes ≠ [] → validated isfile codes ≠ [].
Proof.
  destruct codes as [|lang codes]; [done|]. intros _ Hnil.
  assert (lang ∈ lang :: codes) as Hin by left.
  destruct (fate_of isfile lang) as [| |d] eqn:Hf.
  - assert (lang ∈ validated isfile (lang :: codes)) as Hv.
    { apply elem_of_app. left. by apply elem_of_kept. }
    rewrite Hnil in Hv. by apply elem_of_nil in Hv.
  - destruct (validated_Dropped _ _ Hin Hf) as [_ Hv].
    rewrite Hnil in Hv. by apply elem_of_nil in Hv.
  - destruct (validated_Switched _ _ _ Hin Hf) as [_ Hd].
    assert (d ∈ validated isfile (lang :: codes)) as Hv.
    { apply elem_of_app. by right. }
    rewrite Hnil in Hv. by apply elem_of_nil in Hv.
Qed.

(** A list of kept codes is left as it is. *)
Lemma validated_fixed codes :
  Forall (λ lang, fate_of isfile lang = Kept) codes →
  validated isfile codes = codes.
Proof.
  intros Hall. unfold validated.
  assert (∀ en, appended isfile en [] codes = []) as ->.
  { intros en. induction Hall as [|lang codes Hf _ IH]; [done|].
    change (appended isfile en [] (lang :: codes))
      with (appended isfile en (append_step isfile en [] lang) codes).
    unfold append_step. by rewrite Hf. }
  rewrite app_nil_r. induction Hall as [|lang codes Hf _ IH]; [done|].
  cbn [List.filter]. apply keeps_Kept in Hf. by rewrite Hf, IH.
Qed.

End Validated.

(** ** Dependence on the directory *)

Section Directories.

Variables isfile isfile' : string → bool.

Lemma first_supported_ext parts :
  (∀ part, part ∈ parts →
           isfile (lunr_file (resolve_part part))
           = isfile' (lunr_file (resolve_part part))) →
  first_supported isfile parts = first_supported isfile' parts.
Proof.
  induction parts as [|p parts IH]; intros Hagree; [done|].
  cbn [first_supported]. fold (resolve_part p).
  rewrite <-(Hagree p) by left. rewrite IH; [done|].
  intros part Hin. apply Hagree. by right.
Qed.

Lemma fate_of_ext lang :
  (lang ≠ "en" → agree_on isfile isfile' lang) → fate_of isfile lang = fate_of isfile' lang.
Proof.
  intros Hagree. unfold fate_of, get_lunr_supported_lang.
  case_bool_decide as Hen; [done|].
  rewrite (first_supported_ext (split "_" lang)); [done|]. by apply Hagree.
Qed.

Lemma validated_ext codes :
  (∀ lang, lang ∈ codes → lang ≠ "en" → agree_on isfile isfile' lang) →
  validated isfile codes = validated isfile' codes.
Proof.
  intros Hagree.
  assert (Forall (λ lang, fate_of isfile lang = fate_of isfile' lang) codes) as Hall.
  { apply Forall_forall. intros lang Hin. apply fate_of_ext. eauto. }
  clear Hagree. unfold validated. f_equal.
  - induction Hall as [|lang codes Hf _ IH]; [done|].
    assert (keeps isfile lang = keeps isfile' lang) as Hk
      by (unfold keeps; by rewrite Hf).
    cbn [List.filter]. by rewrite Hk, IH.
  - generalize (bool_decide ("en" ∈ codes)), (@nil string).
    induction Hall as [|lang codes Hf _ IH]; intros en app; [done|].
    change (appended isfile en (append_step isfile en app lang) codes
            = appended isfile' en (append_step isfile' en app lang) codes).
    unfold append_step. by rewrite Hf, IH.
Qed.

Lemma run_validation_ext codes :
  (∀ lang, lang ∈ codes → lang ≠ "en" → agree_on isfile isfile' lang) →
  run_validation isfile (PyList (PyStr <$> codes))
  = run_validation isfile' (PyList (PyStr <$> codes)).
Proof. intros Hagree. by rewrite !run_validation_strs, validated_ext. Qed.

End Directories.

(** Settles a goal [∀ lang, lang ∈ codes → lang ≠ "en" → agree_on ...] for
    closed [codes] from the facts about [isfile] in the context. *)
Ltac agree_on_closed :=
  let lang := fresh "lang" in
  let part := fresh "part" in
  let Hin := fresh "Hin" in
  let Hpart := fresh "Hpart" in
  intros lang Hin _ part Hpart;
  repeat (apply elem_of_cons in Hin as [->|Hin]);
  [.. | by apply elem_of_nil in Hin];
  vm_compute in Hpart;
  repeat (apply elem_of_cons in Hpart as [->|Hpart]);
  first [by apply elem_of_nil in Hpart
        | vm_compute; vm_compute in *; congruence].

Lemma elem_of_strs lang (codes : list string) :
  PyStr lang ∈ PyStr <$> codes ↔ lang ∈ codes.
Proof.
  rewrite list_elem_of_fmap. split; [|by eauto].
  by intros (lang' & [= ->] & ?).
Qed.

(** * The language option *)



(** C2, as the code has it: resolution does not depend on the case of the
    code; the parts of the code between ['_'] are tried from left to
    right, each lower-cased and then mapped by the fallback table before
    its file is looked up, and the first part with a file is the result,
    so that a later part is used when the first one has no file; when the
    first part has its file it is the result. *)
Theorem get_lunr_supported_lang_parts isfile lang :
  (∀ lang', lower lang' = lower lang →
            get_lunr_supported_lang isfile lang'
            = get_lunr_supported_lang isfile lang)
  ∧ (∀ d, get_lunr_supported_lang isfile lang = Some d ↔
          ∃ pre part post,
            split "_" lang = pre ++ part :: post ∧
            Forall (unsupported isfile) pre ∧
            d = resolve_part part ∧ isfile (lunr_file d) = true)
  ∧ (get_lunr_supported_lang isfile lang = None ↔
     Forall (unsupported isfile) (split "_" lang))
  ∧ (∀ part, resolve_part part
             = if bool_decide (lower part = "uk") then "ru" else lower part)
  ∧ (∀ first, head (split "_" lang) = Some first →
              isfile (lunr_file (resolve_part first)) = true →
              get_lunr_supported_lang isfile lang = Some (resolve_part first)).
Proof.
  split; [|split; [|split; [|split]]].
  - intros lang' Hlower.
    by rewrite <-(get_lunr_supported_lang_lower isfile lang'), Hlower,
      get_lunr_supported_lang_lower.
  - intros d. apply first_supported_Some.
  - apply first_supported_None.
  - intros part. unfold resolve_part. by rewrite dict_get_fallback.
  - intros first Hhead Hfile. unfold get_lunr_supported_lang.
    destruct (split "_" lang) as [|p parts]; simplify_eq/=.
    fold (resolve_part first). by rewrite Hfile.
Qed.

Lemma get_lunr_supported_lang_parts_witness :
  get_lunr_supported_lang (disk lunr_language) "UK_ua"
  = get_lunr_supported_lang (disk lunr_language) "uk_UA"
  ∧ get_lunr_supported_lang (disk lunr_language) "uk_UA" = Some "ru".
Proof.
  destruct (get_lunr_supported_lang_parts (disk lunr_language) "uk_UA")
    as (Hcase & _ & _ & _ & Hfirst).
  split.
  - apply Hcase. vm_compute. reflexivity.
  - apply (Hfirst "uk"); vm_compute; reflexivity.
Defined.

(** C2, as stated, fails: the part after the separator decides the result
    when the part before it has no file. *)
Lemma get_lunr_supported_lang_not_first_only :
  ¬ (∀ isfile lang first,
       lang ≠ "en" → head (split "_" lang) = Some first →
       get_lunr_supported_lang isfile lang
       = get_lunr_supported_lang isfile first).
Proof.
  intros Hclaim.
  specialize (Hclaim (disk lunr_language) "zz_de" "zz").
  vm_compute in Hclaim. by specialize (Hclaim ltac:(discriminate) eq_refl).
Qed.

(** C3, as the code has it: a value that validation accepts and that is
    not the empty list gives a non-empty list, every element of which is a
    code that is ['en'] or has its file; the empty list is accepted and
    gives the empty list. *)
Theorem run_validation_nonempty isfile value out :
  run_validation isfile value = Ok out →
  (value ≠ PyList [] → out ≠ [])
  ∧ (∀ obj, obj ∈ out → ∃ lang, obj = PyStr lang ∧ supported isfile lang)
  ∧ run_validation isfile (PyList []) = Ok [].
Proof.
  intros (codes & Hvalue & ->)%run_validation_Ok. split; [|split; [|done]].
  - intros Hne Hnil. apply fmap_nil_inv in Hnil.
    apply (validated_nonempty isfile codes); [|done].
    intros ->. destruct Hvalue as [->|(lang & _ & [=])]. by apply Hne.
  - intros obj (lang & -> & Hin)%list_elem_of_fmap. exists lang.
    split; [done|]. eauto using fate_of_Kept_supported, validated_Kept.
Qed.

Lemma run_validation_nonempty_witness :
  (PyList [PyStr "zzz"] ≠ PyList [] → [PyStr "en"] ≠ [])
  ∧ (∀ obj, obj ∈ [PyStr "en"] →
            ∃ lang, obj = PyStr lang ∧ supported (disk lunr_language) lang)
  ∧ run_validation (disk lunr_language) (PyList []) = Ok [].
Proof.
  apply (run_validation_nonempty (disk lunr_language) (PyList [PyStr "zzz"])).
  vm_compute. reflexivity.
Defined.

(** C3, as stated, fails: the empty list is accepted and comes back
    empty. *)
Lemma run_validation_empty_list :
  ¬ (∀ isfile value out, run_validation isfile value = Ok out → out ≠ []).
Proof.
  intros Hclaim.
  by apply (Hclaim (disk lunr_language) (PyList []) [] eq_refl).
Qed.

(** C4, as the code has it: a code other than ['en'] that resolves to a
    different, non-empty code is removed from the list and the resolved
    code is appended at the end, after the codes that are kept; validation
    goes on and returns. *)
Theorem run_validation_switches isfile codes lang d :
  lang ∈ codes → lang ≠ "en" →
  get_lunr_supported_lang isfile lang = Some d → d ≠ "" → d ≠ lang →
  ∃ tail, run_validation isfile (PyList (PyStr <$> codes))
          = Ok (PyStr <$> (List.filter (keeps isfile) codes ++ tail))
          ∧ d ∈ tail
          ∧ lang ∉ List.filter (keeps isfile) codes ++ tail.
Proof.
  intros Hin Hen Hget Hd Hne.
  assert (fate_of isfile lang = Switched d) as Hf by by apply fate_of_Switched.
  exists (appended isfile (bool_decide ("en" ∈ codes)) [] codes).
  split; [apply run_validation_strs|].
  destruct (validated_Switched isfile codes lang d Hin Hf) as [Hout Happ].
  by split.
Qed.

Lemma run_validation_switches_witness :
  ∃ tail, run_validation (disk lunr_language) (PyList (PyStr <$> ["DE"; "fr"]))
          = Ok (PyStr <$> (List.filter (keeps (disk lunr_language)) ["DE"; "fr"]
                           ++ tail))
          ∧ "de" ∈ tail
          ∧ "DE" ∉ List.filter (keeps (disk lunr_language)) ["DE"; "fr"] ++ tail.
Proof.
  apply (run_validation_switches (disk lunr_language) ["DE"; "fr"] "DE" "de").
  - left.
  - discriminate.
  - vm_compute. reflexivity.
  - discriminate.
  - discriminate.
Defined.

(** C4, as stated, fails: the resolved code does not take the place of the
    original one; [DE, fr] validates to [fr, de]. *)
Lemma run_validation_not_in_place :
  ¬ (∀ isfile pre lang post d,
       Forall (λ l, keeps isfile l = true) pre →
       lang ≠ "en" →
       get_lunr_supported_lang isfile lang = Some d → d ≠ "" → d ≠ lang →
       ∃ out, run_validation isfile (PyList (PyStr <$> (pre ++ lang :: post)))
              = Ok out
              ∧ out !! length pre = Some (PyStr d)).
Proof.
  intros Hclaim.
  destruct (Hclaim (disk lunr_language) [] "DE" ["fr"] "de")
    as (out & Hrun & Hpos).
  - constructor.
  - discriminate.
  - vm_compute. reflexivity.
  - discriminate.
  - discriminate.
  - vm_compute in Hrun. injection Hrun as <-. discriminate Hpos.
Qed.

(** C5: [LangOption.run_validation] does what the claim says: a single
    code is validated as the list of that one code and gives the list of
    the one code it validates to (the code itself, the code it resolves to,
    or ['en']), and a value that is neither a [str] nor a [list] raises the
    validation error.  But the option declared on line 49 never calls it:
    it returns every value other than [None] unchanged, the integer [3]
    included, and raises nothing. *)
Theorem run_validation_type isfile value :
  (∀ lang, value = PyStr lang →
     run_validation isfile value = run_validation isfile (PyList [PyStr lang])
     ∧ run_validation isfile value
       = Ok [PyStr (if bool_decide (lang = "en") then "en"
                    else match get_lunr_supported_lang isfile lang with
                         | Some d => if bool_decide (d = "") then "en" else d
                         | None => "en"
                         end)])
  ∧ (isinstance_str value = false → isinstance_list value = false →
     run_validation isfile value
     = Raise (ValidationError "Expected a list of language codes."))
  ∧ (∀ default, value ≠ PyNone → lang_validate default value = Ok value).
Proof.
  split; [|split].
  - intros lang ->. split; [done|].
    pose proof (run_validation_strs isfile [lang]) as Hrun.
    change (run_validation isfile (PyStr lang)
            = Ok (PyStr <$> validated isfile [lang])) in Hrun.
    rewrite Hrun. f_equal.
    unfold validated, appended. cbn [List.filter foldl].
    unfold keeps, append_step, fate_of.
    destruct (decide (lang = "en")) as [->|Hen]; [reflexivity|].
    rewrite !(bool_decide_eq_false_2 (lang = "en")) by done.
    rewrite (bool_decide_eq_false_2 ("en" ∈ [lang]))
      by (intros Hin%list_elem_of_singleton; congruence).
    destruct (get_lunr_supported_lang isfile lang) as [d|]; [|reflexivity].
    destruct (decide (d = "")) as [->|Hd]; [reflexivity|].
    rewrite !(bool_decide_eq_false_2 (d = "")) by done.
    destruct (decide (d = lang)) as [->|Hsame].
    + by rewrite !(bool_decide_eq_true_2 (lang = lang)).
    + by rewrite !(bool_decide_eq_false_2 (d = lang)).
  - by destruct value.
  - intros default Hnone. by destruct value.
Qed.

Lemma run_validation_type_witness :
  run_validation (disk lunr_language) (PyStr "uk") = Ok [PyStr "ru"]
  ∧ run_validation (disk lunr_language) (PyInt 3)
    = Raise (ValidationError "Expected a list of language codes.")
  ∧ lang_validate PyNone (PyInt 3) = Ok (PyInt 3).
Proof.
  split; [|split].
  - destruct (run_validation_type (disk lunr_language) (PyStr "uk"))
      as (Hstr & _ & _).
    destruct (Hstr "uk" eq_refl) as [_ Hone]. rewrite Hone.
    vm_compute. reflexivity.
  - destruct (run_validation_type (disk lunr_language) (PyInt 3))
      as (_ & Hother & _).
    apply Hother; reflexivity.
  - destruct (run_validation_type (disk lunr_language) (PyInt 3))
      as (_ & _ & Hoption).
    apply Hoption. discriminate.
Defined.

(** C6, as the code has it: the validation declared for
    [min_search_length] checks the type only; an unset value ([None]) is
    replaced by the default [3], every [int], negative ones and [bool]s
    included, is accepted as it is, and every other value raises the
    validation error that names the two types. *)
Theorem min_search_length_type value :
  (value = PyNone → min_search_length_validate value = Ok (PyInt 3))
  ∧ (isinstance_int value = true →
     min_search_length_validate value = Ok value)
  ∧ (value ≠ PyNone → isinstance_int value = false →
     min_search_length_validate value
     = Raise (ValidationError
                ("Expected type: <class 'int'> but received: "
                 +:+ type_repr (type_of value))))
  ∧ ∀ z, min_search_length_validate (PyInt z) = Ok (PyInt z).
Proof.
  split; [|split; [|split]].
  - by intros ->.
  - by destruct value.
  - by destruct value.
  - done.
Qed.

Lemma min_search_length_type_witness :
  min_search_length_validate PyNone = Ok (PyInt 3)
  ∧ min_search_length_validate (PyBool true) = Ok (PyBool true)
  ∧ min_search_length_validate (PyStr "3")
    = Raise (ValidationError
               "Expected type: <class 'int'> but received: <class 'str'>").
Proof.
  split; [|split].
  - destruct (min_search_length_type PyNone) as (Hnone & _).
    apply Hnone. reflexivity.
  - destruct (min_search_length_type (PyBool true)) as (_ & Hint & _).
    apply Hint. reflexivity.
  - destruct (min_search_length_type (PyStr "3")) as (_ & _ & Hother & _).
    apply Hother; [discriminate|reflexivity].
Defined.

(** C6, as stated, fails: the negative integer [-1] is accepted. *)
Lemma min_search_length_negative :
  ¬ (∀ value,
       ¬ (∃ z, value = PyInt z ∧ (0 ≤ z)%Z) →
       ∃ msg, min_search_length_validate value = Raise (ValidationError msg)).
Proof.
  intros Hclaim. destruct (Hclaim (PyInt (-1))) as [msg Hmsg].
  - intros (z & [= <-] & Hz). lia.
  - discriminate Hmsg.
Qed.

(** C7: with the file of [ru] present, the codes [uk, ru] validate to
    [ru, ru]: the fallback of [uk] is appended although [ru] is already in
    the list, and the list returned has a duplicate. *)
Theorem run_validation_duplicates isfile :
  isfile "lunr.ru.js" = true →
  run_validation isfile (PyList [PyStr "uk"; PyStr "ru"])
  = Ok [PyStr "ru"; PyStr "ru"]
  ∧ ¬ NoDup [PyStr "ru"; PyStr "ru"].
Proof.
  intros Hru. split.
  - change (PyList [PyStr "uk"; PyStr "ru"]) with (PyList (PyStr <$> ["uk"; "ru"])).
    rewrite (run_validation_ext isfile (disk {[ "lunr.ru.js" ]})).
    + vm_compute. reflexivity.
    + agree_on_closed.
  - intros Hnodup. apply NoDup_cons_1_1 in Hnodup. apply Hnodup. left.
Qed.

Lemma run_validation_duplicates_witness :
  run_validation (disk lunr_language) (PyList [PyStr "uk"; PyStr "ru"])
  = Ok [PyStr "ru"; PyStr "ru"]
  ∧ ¬ NoDup [PyStr "ru"; PyStr "ru"].
Proof.
  apply (run_validation_duplicates (disk lunr_language)).
  vm_compute. reflexivity.
Defined.

Lemma en_sublist_kept isfile codes :
  List.filter (λ l, bool_decide (l = "en")) codes
  `sublist_of` List.filter (keeps isfile) codes.
Proof.
  induction codes as [|lang codes IH]; [done|]. cbn [List.filter].
  case_bool_decide as Hen.
  - subst. change (keeps isfile "en") with true. by apply sublist_skip.
  - destruct (keeps isfile lang); [by apply sublist_cons|done].
Qed.

(** C8: the turn of the loop on ['en'] leaves the list as it is; the
    occurrences of ['en'] in the input are all in the list returned, in
    their order; and the result does not depend on any file but those of
    the parts of the other codes: no file is looked up for ['en']. *)
Theorem run_validation_en isfile isfile' codes :
  (∀ lang, lang ∈ codes → lang ≠ "en" → agree_on isfile isfile' lang) →
  run_validation isfile (PyList (PyStr <$> codes))
  = run_validation isfile' (PyList (PyStr <$> codes))
  ∧ (∀ snapshot value,
       validate_loop isfile (PyStr "en" :: snapshot) value
       = validate_loop isfile snapshot value)
  ∧ ∃ out, run_validation isfile (PyList (PyStr <$> codes)) = Ok (PyStr <$> out)
           ∧ List.filter (λ l, bool_decide (l = "en")) codes `sublist_of` out.
Proof.
  intros Hagree. split; [by apply run_validation_ext|]. split; [done|].
  exists (validated isfile codes). split; [apply run_validation_strs|].
  unfold validated. apply sublist_inserts_r, en_sublist_kept.
Qed.

Lemma run_validation_en_witness :
  run_validation (disk lunr_language) (PyList (PyStr <$> ["en"; "de"; "en"]))
  = run_validation (disk ({[ "lunr.en.js" ]} ∪ lunr_language))
      (PyList (PyStr <$> ["en"; "de"; "en"]))
  ∧ (∀ snapshot value,
       validate_loop (disk lunr_language) (PyStr "en" :: snapshot) value
       = validate_loop (disk lunr_language) snapshot value)
  ∧ ∃ out, run_validation (disk lunr_language)
             (PyList (PyStr <$> ["en"; "de"; "en"])) = Ok (PyStr <$> out)
           ∧ List.filter (λ l, bool_decide (l = "en")) ["en"; "de"; "en"]
             `sublist_of` out.
Proof.
  apply (run_validation_en (disk lunr_language)
           (disk ({[ "lunr.en.js" ]} ∪ lunr_language)) ["en"; "de"; "en"]).
  intros lang Hin Hen part Hpart.
  assert (lang = "de") as ->.
  { repeat (apply elem_of_cons in Hin as [->|Hin]); try done.
    by apply elem_of_nil in Hin. }
  vm_compute in Hpart. apply list_elem_of_singleton in Hpart as ->.
  vm_compute. reflexivity.
Defined.

(** * The support files *)

Lemma foldl_lunr_files lang : ∀ files,
  foldl (λ files lang,
           if bool_decide (lang ≠ "en") then files ++ [lunr_file lang] else files)
        files lang
  = files ++ (lunr_file <$> List.filter (λ l, bool_decide (l ≠ "en")) lang).
Proof.
  induction lang as [|l lang IH]; intros files; cbn [foldl List.filter].
  - by rewrite app_nil_r.
  - rewrite IH. case_bool_decide; [|done].
    by rewrite fmap_cons, <-(assoc_L (++)).
Qed.

Lemma elem_of_lunr_files name lang :
  name ∈ lunr_file <$> List.filter (λ l, bool_decide (l ≠ "en")) lang ↔
  ∃ l, name = lunr_file l ∧ l ∈ lang ∧ l ≠ "en".
Proof.
  rewrite list_elem_of_fmap. f_equiv. intros l.
  rewrite list_elem_of_In, List.filter_In, <-list_elem_of_In, bool_decide_eq_true.
  done.
Qed.

Lemma lunr_file_multi l : lunr_file l = "lunr.multi.js" → l = "multi".
Proof.
  unfold lunr_file. cbn. intros [= H].
  do 8 (destruct l as [|? l];
        [first [discriminate H | reflexivity]
        | cbn in H; injection H as -> H]).
  destruct l; discriminate H.
Qed.

(** C9, as the code has it: when the theme sets [search_index_only] no
    file is selected; otherwise the files selected are those of
    [support_files], a function of the language list: the stemmer support
    file when there is more than one code or ['en'] is absent, then the
    combiner file when there is more than one code, then the segmentation
    helper exactly when ['ja'] or ['jp'] is present, then the file of each
    code other than ['en'].  The name of the combiner file is thus selected
    exactly when there is more than one code or the code [multi] is in the
    list. *)
Theorem on_post_build_files theme lang :
  (search_index_only theme = true → on_post_build theme (Some lang) = Ok [])
  ∧ (search_index_only theme = false →
     ∃ files, on_post_build theme (Some lang) = Ok files
       ∧ files = support_files lang
       ∧ (1 < length lang → "lunr.multi.js" ∈ files)
       ∧ ("lunr.multi.js" ∈ files → 1 < length lang ∨ "multi" ∈ lang)
       ∧ ("tinyseg.js" ∈ files ↔ "ja" ∈ lang ∨ "jp" ∈ lang)
       ∧ (1 < length lang ∨ "en" ∉ lang → "lunr.stemmer.support.js" ∈ files)
       ∧ (∀ l, l ∈ lang → l ≠ "en" → lunr_file l ∈ files)).
Proof.
  unfold on_post_build. split; intros ->; [done|]. cbn [negb].
  exists (support_files lang).
  assert (bool_decide (1 < length lang) || negb (bool_decide ("en" ∈ lang))
          = bool_decide (1 < length lang ∨ "en" ∉ lang)) as Hstem.
  { repeat case_bool_decide; naive_solver. }
  assert (bool_decide ("ja" ∈ lang) || bool_decide ("jp" ∈ lang)
          = bool_decide ("ja" ∈ lang ∨ "jp" ∈ lang)) as Hseg.
  { repeat case_bool_decide; naive_solver. }
  split.
  { rewrite foldl_lunr_files, Hstem, Hseg. unfold support_files. f_equal.
    repeat case_bool_decide; by rewrite <-?(assoc_L (++)). }
  split; [done|]. unfold support_files.
  split; [|split; [|split; [|split]]].
  - intros Hlen. rewrite (bool_decide_eq_true_2 (1 < length lang)) by done.
    rewrite !elem_of_app. right. left. left.
  - rewrite !elem_of_app, elem_of_lunr_files.
    intros [Hin|[Hin|[Hin|(l & Hl & Hin & _)]]].
    + case_bool_decide; [|by apply elem_of_nil in Hin].
      by apply list_elem_of_singleton in Hin.
    + case_bool_decide; [by left|by apply elem_of_nil in Hin].
    + case_bool_decide; [|by apply elem_of_nil in Hin].
      by apply list_elem_of_singleton in Hin.
    + right. symmetry in Hl. by apply lunr_file_multi in Hl as ->.
  - rewrite !elem_of_app, elem_of_lunr_files. split.
    + intros [Hin|[Hin|[Hin|(l & Hl & _)]]].
      * case_bool_decide; [|by apply elem_of_nil in Hin].
        by apply list_elem_of_singleton in Hin.
      * case_bool_decide; [|by apply elem_of_nil in Hin].
        by apply list_elem_of_singleton in Hin.
      * case_bool_decide; [done|by apply elem_of_nil in Hin].
      * discriminate Hl.
    + intros Hcjk. right. right. left.
      rewrite bool_decide_eq_true_2 by done. left.
  - intros Hcond. rewrite bool_decide_eq_true_2 by done.
    rewrite !elem_of_app. left. left.
  - intros l Hin Hen. rewrite !elem_of_app, elem_of_lunr_files.
    do 3 right. by exists l.
Qed.

Lemma on_post_build_files_witness :
  on_post_build {[ "search_index_only" := PyBool true ]} (Some ["de"; "ja"])
  = Ok []
  ∧ on_post_build ∅ (Some ["de"; "ja"])
    = Ok ["lunr.stemmer.support.js"; "lunr.multi.js"; "tinyseg.js";
          "lunr.de.js"; "lunr.ja.js"].
Proof.
  split.
  - apply (on_post_build_files {[ "search_index_only" := PyBool true ]}).
    vm_compute. reflexivity.
  - destruct (on_post_build_files ∅ ["de"; "ja"]) as [_ Hsel].
    destruct Hsel as (files & -> & -> & _); [vm_compute; reflexivity|].
    vm_compute. reflexivity.
Defined.

(** C9, as stated, fails: with [search_index_only] set no file is selected
    although two languages are configured; and the name of the combiner
    file is selected for the single code [multi]. *)
Lemma on_post_build_not_only_lang :
  ¬ (∀ theme lang files,
       on_post_build theme (Some lang) = Ok files →
       ("lunr.multi.js" ∈ files ↔ 1 < length lang))
  ∧ ¬ (∀ theme lang files,
         search_index_only theme = false →
         on_post_build theme (Some lang) = Ok files →
         ("lunr.multi.js" ∈ files ↔ 1 < length lang)).
Proof.
  split; intros Hclaim.
  - destruct (Hclaim {[ "search_index_only" := PyBool true ]} ["de"; "fr"] [])
      as [_ Hin]; [vm_compute; reflexivity|].
    specialize (Hin ltac:(simpl; lia)). by apply elem_of_nil in Hin.
  - destruct (Hclaim ∅ ["multi"] ["lunr.stemmer.support.js"; "lunr.multi.js"])
      as [Hlen _]; [vm_compute; reflexivity..|].
    specialize (Hlen ltac:(right; left)). simpl in Hlen. lia.
Qed.

(** * Validation twice *)

(** C10: a list that validation returns is returned unchanged when it is
    validated again against the same directory; each of its elements is a
    code that is ['en'] or resolves to itself. *)
Theorem run_validation_idempotent isfile value out :
  run_validation isfile value = Ok out →
  run_validation isfile (PyList out) = Ok out
  ∧ ∀ obj, obj ∈ out →
           ∃ lang, obj = PyStr lang ∧
                   (lang = "en" ∨ get_lunr_supported_lang isfile lang = Some lang).
Proof.
  intros (codes & _ & ->)%run_validation_Ok.
  assert (Forall (λ lang, fate_of isfile lang = Kept) (validated isfile codes))
    as Hkept.
  { apply Forall_forall. intros lang. apply validated_Kept. }
  split.
  - by rewrite run_validation_strs, validated_fixed.
  - intros obj (lang & -> & Hin)%list_elem_of_fmap. exists lang. split; [done|].
    eapply Forall_forall in Hkept; [|done].
    apply fate_of_Kept in Hkept. naive_solver.
Qed.

Lemma run_validation_idempotent_witness :
  run_validation (disk lunr_language)
    (PyList [PyStr "ru"; PyStr "ru"; PyStr "de"; PyStr "en"])
  = Ok [PyStr "ru"; PyStr "ru"; PyStr "de"; PyStr "en"].
Proof.
  apply (run_validation_idempotent (disk lunr_language)
           (PyList [PyStr "uk_UA"; PyStr "ru"; PyStr "DE"; PyStr "zzz"])).
  vm_compute. reflexivity.
Defined.

(** * Further properties of the language option *)

Section MixedLists.

Variable isfile : string → bool.

Lemma list_remove_front x (kept : list string) (rest : list pyobj) :
  x ∉ kept →
  list_remove x ((PyStr <$> kept) ++ PyStr x :: rest)
  = Ok ((PyStr <$> kept) ++ rest).
Proof.
  induction kept as [|a kept IH]; intros Hx.
  - cbn [fmap list_fmap List.app list_remove eq_str].
    by rewrite bool_decide_eq_true_2.
  - rewrite fmap_cons. cbn [List.app list_remove eq_str].
    rewrite bool_decide_eq_false_2 by set_solver.
    rewrite IH by set_solver. done.
Qed.

(** The loop stops at the first element that is not a [str], with
    [TypeError] for [bytes] and [AttributeError] otherwise; the turns
    before it never fail. *)
Lemma validate_loop_bad bad post todo : ∀ kept app,
  isinstance_str bad = false →
  Forall (λ lang, fate_of isfile lang = Kept) kept →
  validate_loop isfile ((PyStr <$> todo) ++ bad :: post)
    ((PyStr <$> kept) ++ ((PyStr <$> todo) ++ bad :: post) ++ app)
  = Raise (if isinstance_bytes bad then TypeError else AttributeError).
Proof.
  induction todo as [|lang todo IH]; intros kept app Hbad Hkept.
  - by destruct bad.
  - rewrite fmap_cons. cbn [List.app]. rewrite validate_loop_cons.
    assert (fate_of isfile lang ≠ Kept → lang ∉ kept) as Hout.
    { intros Hf Hin. by eapply Forall_forall in Hkept. }
    destruct (fate_of isfile lang) as [| |d] eqn:Hf.
    + specialize (IH (kept ++ [lang]) app Hbad).
      rewrite fmap_app, <-(assoc_L (++)) in IH. apply IH.
      apply Forall_app. split; [done|]. by constructor.
    + rewrite list_remove_front by by apply Hout.
      cbn [mbind result_bind PyMonad.bind].
      destruct (contains "en" _); [by apply IH|].
      etrans; [|apply (IH kept (app ++ [PyStr "en"]) Hbad Hkept)].
      f_equal. by rewrite <-!(assoc_L (++)).
    + rewrite list_remove_front by by apply Hout.
      cbn [mbind result_bind PyMonad.bind].
      etrans; [|apply (IH kept (app ++ [PyStr d]) Hbad Hkept)].
      f_equal. by rewrite <-!(assoc_L (++)).
Qed.

Lemma strs_or_bad (l : list pyobj) :
  (∃ codes, l = PyStr <$> codes)
  ∨ (∃ pre bad post, l = (PyStr <$> pre) ++ bad :: post
                     ∧ isinstance_str bad = false).
Proof.
  induction l as [|obj l IH]; [left; by exists []|].
  destruct (isinstance_str obj) eqn:Hobj.
  - destruct obj as [| | |s| |]; try discriminate Hobj.
    destruct IH as [[codes ->]|(pre & bad & post & -> & Hbad)].
    + left. by exists (s :: codes).
    + right. by exists (s :: pre), bad, post.
  - right. by exists [], obj, l.
Qed.

End MixedLists.

(** X1: on a list of [None], [bool], [int], [str], [list] and [bytes]
    values, validation returns when every element is a [str]; otherwise it
    raises at the first element that is not a [str], [TypeError] when that
    element is [bytes] and [AttributeError] when it is not, so that no
    other exception is raised and [list.remove] never fails on a code
    visited before it. *)
Theorem run_validation_list_outcome isfile l :
  (Forall (λ obj, isinstance_str obj = true) l →
   ∃ out, run_validation isfile (PyList l) = Ok out)
  ∧ (∀ pre bad post,
       l = (PyStr <$> pre) ++ bad :: post → isinstance_str bad = false →
       run_validation isfile (PyList l)
       = Raise (if isinstance_bytes bad then TypeError else AttributeError))
  ∧ (Exists (λ obj, isinstance_str obj = false) l →
     run_validation isfile (PyList l) = Raise TypeError
     ∨ run_validation isfile (PyList l) = Raise AttributeError).
Proof.
  assert (∀ pre bad post,
            l = (PyStr <$> pre) ++ bad :: post → isinstance_str bad = false →
            run_validation isfile (PyList l)
            = Raise (if isinstance_bytes bad then TypeError else AttributeError))
    as Hfirst.
  { intros pre bad post -> Hbad. unfold run_validation. cbn [isinstance_str].
    pose proof (validate_loop_bad isfile bad post pre [] [] Hbad) as Hloop.
    cbn [fmap list_fmap List.app] in Hloop. rewrite app_nil_r in Hloop.
    apply Hloop. constructor. }
  split; [|split; [exact Hfirst|]].
  - destruct (strs_or_bad l) as [[codes ->]|(pre & bad & post & -> & Hbad)].
    + intros _. eexists. apply run_validation_strs.
    + intros Hall. apply Forall_app in Hall as [_ Hall].
      apply Forall_cons_1 in Hall as [Hstr _]. congruence.
  - destruct (strs_or_bad l) as [[codes ->]|(pre & bad & post & Hl & Hbad)].
    + intros Hex. apply Exists_exists in Hex as (obj & Hin & Hobj).
      apply list_elem_of_fmap in Hin as (lang & -> & _). discriminate Hobj.
    + intros _. rewrite (Hfirst pre bad post Hl Hbad).
      destruct (isinstance_bytes bad); [by left|by right].
Qed.

Lemma run_validation_list_outcome_witness :
  (∃ out, run_validation (disk lunr_language)
            (PyList [PyStr "zzz"; PyStr "zzz"; PyStr "DE"]) = Ok out)
  ∧ run_validation (disk lunr_language)
      (PyList [PyStr "zzz"; PyInt 3; PyBytes []]) = Raise AttributeError
  ∧ run_validation (disk lunr_language)
      (PyList [PyStr "zzz"; PyBytes []; PyInt 3]) = Raise TypeError.
Proof.
  split; [|split].
  - apply (run_validation_list_outcome (disk lunr_language)
             [PyStr "zzz"; PyStr "zzz"; PyStr "DE"]).
    repeat (apply Forall_cons_2; [reflexivity|]). apply Forall_nil_2.
  - destruct (run_validation_list_outcome (disk lunr_language)
                [PyStr "zzz"; PyInt 3; PyBytes []]) as (_ & Hfirst & _).
    apply (Hfirst ["zzz"] (PyInt 3) [PyBytes []]); reflexivity.
  - destruct (run_validation_list_outcome (disk lunr_language)
                [PyStr "zzz"; PyBytes []; PyInt 3]) as (_ & Hfirst & _).
    apply (Hfirst ["zzz"] (PyBytes []) [PyInt 3]); reflexivity.
Defined.

Section Sizes.

Variable isfile : string → bool.

Lemma append_step_length en app lang :
  length (append_step isfile en app lang)
  ≤ length app + (if keeps isfile lang then 0 else 1).
Proof.
  unfold append_step, keeps. destruct (fate_of isfile lang); [lia| |].
  - destruct (en || bool_decide ("en" ∈ app)); rewrite ?length_app; simpl; lia.
  - rewrite length_app. simpl. lia.
Qed.

Lemma validated_length_le en todo : ∀ app,
  length (List.filter (keeps isfile) todo) + length (appended isfile en app todo)
  ≤ length app + length todo.
Proof.
  induction todo as [|lang todo IH]; intros app; [simpl; lia|].
  change (appended isfile en app (lang :: todo))
    with (appended isfile en (append_step isfile en app lang) todo).
  specialize (IH (append_step isfile en app lang)).
  pose proof (append_step_length en app lang) as Hstep.
  cbn [List.filter]. destruct (keeps isfile lang); simpl in *; lia.
Qed.

Lemma appended_all_Dropped todo : ∀ app,
  Forall (λ lang, fate_of isfile lang = Dropped) todo →
  appended isfile false app todo
  = if bool_decide (todo = []) || bool_decide ("en" ∈ app)
    then app else app ++ ["en"].
Proof.
  induction todo as [|lang todo IH]; intros app Hall.
  - done.
  - apply Forall_cons_1 in Hall as [Hf Hall].
    change (appended isfile false app (lang :: todo))
      with (appended isfile false (append_step isfile false app lang) todo).
    rewrite IH by done. unfold append_step. rewrite Hf. cbn [orb].
    rewrite (bool_decide_eq_false_2 (lang :: todo = [])) by done. cbn [orb].
    destruct (decide ("en" ∈ app)) as [Hen|Hen].
    + rewrite !(bool_decide_eq_true_2 _ Hen). by rewrite orb_true_r.
    + rewrite !(bool_decide_eq_false_2 _ Hen).
      rewrite (bool_decide_eq_true_2 ("en" ∈ app ++ ["en"])) by set_solver.
      by rewrite orb_true_r.
Qed.

(** A code resolution returns is in normal form. *)
Lemma resolved_normal lang d :
  get_lunr_supported_lang isfile lang = Some d →
  lower d = d ∧ split "_" d = [d] ∧ d ≠ "uk".
Proof.
  intros (_ & Hsplit & Hres)%get_lunr_supported_lang_Some.
  unfold resolve_part in Hres. rewrite dict_get_fallback in Hres.
  case_bool_decide as Huk.
  - subst d. discriminate Huk.
  - split; [done|]. split; [done|]. congruence.
Qed.

End Sizes.

(** X2: validation never lengthens the list: the list returned for a list
    of codes has at most as many elements as the input, and a single code
    always validates to a list of exactly one code. *)
Theorem run_validation_length isfile value out :
  run_validation isfile value = Ok out →
  (∀ l, value = PyList l → length out ≤ length l)
  ∧ (isinstance_str value = true → length out = 1).
Proof.
  intros (codes & Hvalue & ->)%run_validation_Ok.
  pose proof (validated_length_le isfile (bool_decide ("en" ∈ codes)) codes [])
    as Hlen.
  assert (length (validated isfile codes) ≤ length codes) as Hle.
  { unfold validated. rewrite length_app. simpl in Hlen. lia. }
  rewrite length_fmap. split.
  - intros l ->. destruct Hvalue as [[= ->]|(lang & [=] & _)].
    by rewrite length_fmap.
  - intros Hstr. destruct Hvalue as [->|(lang & -> & ->)]; [done|].
    pose proof (validated_nonempty isfile [lang] ltac:(done)) as Hne.
    destruct (validated isfile [lang]); [done|]. simpl in *. lia.
Qed.

Lemma run_validation_length_witness :
  length [PyStr "en"; PyStr "de"] ≤ 4 ∧ length [PyStr "ru"] = 1.
Proof.
  split.
  - destruct (run_validation_length (disk lunr_language)
                (PyList [PyStr "zzz"; PyStr "en"; PyStr "DE"; PyStr "yyy"])
                [PyStr "en"; PyStr "de"]) as [Hlist _].
    + vm_compute. reflexivity.
    + apply (Hlist [PyStr "zzz"; PyStr "en"; PyStr "DE"; PyStr "yyy"]).
      reflexivity.
  - destruct (run_validation_length (disk lunr_language) (PyStr "uk_UA")
                [PyStr "ru"]) as [_ Hstr].
    + vm_compute. reflexivity.
    + apply Hstr. reflexivity.
Defined.

(** X3: a non-empty list of codes none of which is ['en'] or has a
    supported part validates to the list of ['en'] alone. *)
Theorem run_validation_all_unresolved isfile codes :
  codes ≠ [] →
  Forall (λ lang, lang ≠ "en" ∧ Forall (unsupported isfile) (split "_" lang))
         codes →
  run_validation isfile (PyList (PyStr <$> codes)) = Ok [PyStr "en"].
Proof.
  intros Hne Hall. rewrite run_validation_strs. f_equal.
  assert (Forall (λ lang, fate_of isfile lang = Dropped) codes) as Hdropped.
  { eapply Forall_impl; [exact Hall|]. intros lang [Hen Hparts].
    apply fate_of_Dropped. split; [done|].
    apply first_supported_None in Hparts.
    unfold get_lunr_supported_lang. by rewrite Hparts. }
  unfold validated.
  assert (List.filter (keeps isfile) codes = []) as ->.
  { clear Hne Hall. induction Hdropped as [|lang codes Hf _ IH]; [done|].
    cbn [List.filter]. unfold keeps at 1. by rewrite Hf. }
  rewrite (bool_decide_eq_false_2 ("en" ∈ codes)).
  - rewrite appended_all_Dropped by done.
    by rewrite (bool_decide_eq_false_2 (codes = [])).
  - intros Hin. eapply Forall_forall in Hall as [Hen _]; [|exact Hin]. done.
Qed.

Lemma run_validation_all_unresolved_witness :
  run_validation (disk lunr_language) (PyList (PyStr <$> ["zzz"; "EN"; "xx_YY"]))
  = Ok [PyStr "en"].
Proof.
  apply (run_validation_all_unresolved (disk lunr_language)).
  - discriminate.
  - change (split "_" "zzz") with ["zzz"].
    repeat (apply Forall_cons_2;
            [split; [discriminate|];
             repeat (apply Forall_cons_2; [vm_compute; reflexivity|]);
             apply Forall_nil_2|]).
    apply Forall_nil_2.
Defined.

(** X4: the code resolution returns is never ['uk'], whatever files
    exist; it is lower-case, holds no ['_'], has its file, and resolves to
    itself. *)
Theorem get_lunr_supported_lang_normal isfile lang d :
  get_lunr_supported_lang isfile lang = Some d →
  d ≠ "uk" ∧ lower d = d ∧ split "_" d = [d]
  ∧ isfile (lunr_file d) = true
  ∧ get_lunr_supported_lang isfile d = Some d.
Proof.
  intros Hget.
  destruct (resolved_normal isfile lang d Hget) as (Hlower & Hsplit & Huk).
  destruct (get_lunr_supported_lang_Some isfile lang d Hget) as (Hfile & _).
  eauto 6 using get_lunr_supported_lang_fixed.
Qed.

Lemma get_lunr_supported_lang_normal_witness :
  "ru" ≠ "uk" ∧ lower "ru" = "ru" ∧ split "_" "ru" = ["ru"]
  ∧ disk ({[ "lunr.uk.js" ]} ∪ lunr_language) (lunr_file "ru") = true
  ∧ get_lunr_supported_lang (disk ({[ "lunr.uk.js" ]} ∪ lunr_language)) "ru"
    = Some "ru".
Proof.
  apply (get_lunr_supported_lang_normal
           (disk ({[ "lunr.uk.js" ]} ∪ lunr_language)) "UK_ua" "ru").
  vm_compute. reflexivity.
Defined.

(** X5: a list validation returns never holds ['uk'], the empty string, a
    code with an upper-case letter or a code with a ['_']. *)
Theorem run_validation_normal isfile value out lang :
  run_validation isfile value = Ok out → PyStr lang ∈ out →
  lang ≠ "uk" ∧ lang ≠ "" ∧ lower lang = lang ∧ split "_" lang = [lang].
Proof.
  intros (codes & _ & ->)%run_validation_Ok Hin%elem_of_strs.
  apply validated_Kept, fate_of_Kept in Hin as [->|[Hne Hget]].
  - by repeat split.
  - destruct (resolved_normal isfile lang lang Hget) as (? & ? & ?). done.
Qed.

Lemma run_validation_normal_witness :
  "ru" ≠ "uk" ∧ "ru" ≠ "" ∧ lower "ru" = "ru" ∧ split "_" "ru" = ["ru"].
Proof.
  apply (run_validation_normal (disk ({[ "lunr.uk.js" ]} ∪ lunr_language))
           (PyList [PyStr "uk"; PyStr "Fr_fr"]) [PyStr "ru"; PyStr "fr"]).
  - vm_compute. reflexivity.
  - left.
Defined.

(** * Further properties of the support files *)

#[global] Instance PyStr_inj : Inj (=) (=) PyStr.
Proof. by intros s t [= ->]. Qed.

Lemma on_post_build_support_files theme lang :
  search_index_only theme = false →
  on_post_build theme (Some lang) = Ok (support_files lang).
Proof.
  intros Hguard. unfold on_post_build. rewrite Hguard. cbn [negb].
  rewrite foldl_lunr_files. unfold support_files. f_equal.
  assert (bool_decide (1 < length lang) || negb (bool_decide ("en" ∈ lang))
          = bool_decide (1 < length lang ∨ "en" ∉ lang)) as ->.
  { repeat case_bool_decide; naive_solver. }
  assert (bool_decide ("ja" ∈ lang) || bool_decide ("jp" ∈ lang)
          = bool_decide ("ja" ∈ lang ∨ "jp" ∈ lang)) as ->.
  { repeat case_bool_decide; naive_solver. }
  repeat case_bool_decide; by rewrite <-?(assoc_L (++)).
Qed.

(** X6: validation and file selection together: for a list of codes that
    validation returned, every file selected for copying is one of the
    three helper files or a file that exists in the directory the codes
    were validated against. *)
Theorem on_post_build_files_exist isfile theme value codes :
  run_validation isfile value = Ok (PyStr <$> codes) →
  search_index_only theme = false →
  ∃ files, on_post_build theme (Some codes) = Ok files
    ∧ ∀ name, name ∈ files →
        name ∈ ["lunr.stemmer.support.js"; "lunr.multi.js"; "tinyseg.js"]
        ∨ isfile name = true.
Proof.
  intros Hrun Hguard. exists (support_files codes).
  split; [by apply on_post_build_support_files|].
  apply run_validation_Ok in Hrun as (codes0 & _ & Heq).
  apply (inj (fmap PyStr)) in Heq as ->.
  intros name. unfold support_files.
  rewrite !elem_of_app, elem_of_lunr_files.
  intros [Hin|[Hin|[Hin|(l & -> & Hin & Hen)]]].
  - left. case_bool_decide; set_solver.
  - left. case_bool_decide; set_solver.
  - left. case_bool_decide; set_solver.
  - right. apply validated_Kept, fate_of_Kept_supported in Hin as [->|Hfile];
      done.
Qed.

Lemma on_post_build_files_exist_witness :
  ∃ files, on_post_build ∅ (Some ["ru"; "fr"]) = Ok files
    ∧ ∀ name, name ∈ files →
        name ∈ ["lunr.stemmer.support.js"; "lunr.multi.js"; "tinyseg.js"]
        ∨ disk lunr_language name = true.
Proof.
  apply (on_post_build_files_exist (disk lunr_language) ∅
           (PyList [PyStr "uk"; PyStr "zz_FR"])).
  - vm_compute. reflexivity.
  - vm_compute. reflexivity.
Defined.

(** X7: unless the theme sets [search_index_only], no file at all is
    selected exactly for the language list [en]; for every other list,
    the empty one included, the first file selected is the stemmer support
    file. *)
Theorem on_post_build_first_file theme lang files :
  search_index_only theme = false →
  on_post_build theme (Some lang) = Ok files →
  (files = [] ↔ lang = ["en"])
  ∧ (lang ≠ ["en"] → head files = Some "lunr.stemmer.support.js").
Proof.
  intros Hguard Hrun.
  rewrite on_post_build_support_files in Hrun by done.
  injection Hrun as <-. unfold support_files.
  destruct (decide (1 < length lang ∨ "en" ∉ lang)) as [Hstem|Hstem].
  - rewrite (bool_decide_eq_true_2 _ Hstem). split; [|done].
    split; [done|]. intros ->. exfalso.
    destruct Hstem as [Hlen|Hen]; [simpl in Hlen; lia|]. apply Hen. left.
  - assert (lang = ["en"]) as ->.
    { destruct lang as [|l [|l' lang]].
      - exfalso. apply Hstem. right. apply not_elem_of_nil.
      - destruct (decide (l = "en")) as [->|Hl]; [done|].
        exfalso. apply Hstem. right. intros Hin%list_elem_of_singleton. congruence.
      - exfalso. apply Hstem. left. simpl. lia. }
    split; [|done]. split; [done|]. intros _. vm_compute. reflexivity.
Qed.

Lemma on_post_build_first_file_witness :
  ((@nil string) = [] ↔ ["en"] = ["en"])
  ∧ (["de"] ≠ ["en"] →
     head ["lunr.stemmer.support.js"; "lunr.de.js"]
     = Some "lunr.stemmer.support.js").
Proof.
  split.
  - apply (on_post_build_first_file ∅ ["en"] []); vm_compute; reflexivity.
  - apply (on_post_build_first_file ∅ ["de"]
             ["lunr.stemmer.support.js"; "lunr.de.js"]);
      vm_compute; reflexivity.
Defined.

(** * [on_config] *)

Lemma theme_contains_lookup t key :
  theme_contains t key
  = match theme_vars t !! key with Some _ => true | None => false end.
Proof.
  unfold theme_contains. destruct (theme_vars t !! key) as [v|].
  - by apply bool_decide_eq_true_2.
  - apply bool_decide_eq_false_2. by intros [v ?].
Qed.

(** [on_config] in one piece, by the two variables of the theme it reads. *)
Lemma on_config_cases templates config :
  on_config templates config =
  let t := theme config in
  match theme_vars t !! "include_search_page",
        theme_vars t !! "search_index_only" with
  | None, Some _ => KeyError "include_search_page"
  | page, only =>
      let add_page := from_option truthy false page in
      let index_only := bool_decide (is_Some only) && add_page in
      Returns
        {| theme :=
             {| theme_vars := theme_vars t;
                static_templates :=
                  if add_page then static_templates t ∪ {[ "search.html" ]}
                  else static_templates t;
                dirs := if index_only then dirs t else dirs t ++ [templates] |};
           extra_javascript :=
             if index_only || contains "search/main.js" (extra_javascript config)
             then extra_javascript config
             else extra_javascript config ++ [PyStr "search/main.js"] |}
  end.
Proof.
  destruct config as [[vars static ds] extra].
  unfold on_config. cbn [theme extra_javascript].
  rewrite !theme_contains_lookup. unfold theme_getitem.
  cbn [theme_vars static_templates dirs].
  destruct (vars !! "include_search_page") as [page|] eqn:Hpage;
    cbn [from_option].
  - destruct (truthy page) eqn:Htruthy; cbn [theme_vars static_templates dirs];
      rewrite ?theme_contains_lookup; cbn [theme_vars]; rewrite ?Hpage;
      destruct (vars !! "search_index_only") as [only|];
      rewrite ?(bool_decide_eq_true_2 (is_Some (Some _))) by eauto;
      rewrite ?(bool_decide_eq_false_2 (is_Some None)) by (by intros [? ?]);
      rewrite ?Htruthy;
      cbn [negb andb orb theme_vars static_templates dirs]; try done;
      by destruct (contains "search/main.js" extra).
  - rewrite theme_contains_lookup. cbn [theme_vars]. rewrite Hpage.
    destruct (vars !! "search_index_only") as [only|]; [done|].
    rewrite (bool_decide_eq_false_2 (is_Some None)) by (by intros [? ?]).
    cbn [negb andb orb theme_vars static_templates dirs].
    by destruct (contains "search/main.js" extra).
Qed.

Example ex_on_config_default :
  outcome_map config_effects
    (on_config "/pkg/templates"
       {| theme := {| theme_vars := {[ "include_search_page" := PyBool false;
                                       "search_index_only" := PyBool false ]};
                      static_templates := {[ "404.html" ]};
                      dirs := ["/theme"] |};
          extra_javascript := [PyStr "js/base.js"] |})
  = Returns ({[ "404.html" ]}, ["/theme"; "/pkg/templates"],
             [PyStr "js/base.js"; PyStr "search/main.js"]).
Proof. vm_compute. reflexivity. Qed.

Lemma contains_elem_of x (l : list pyobj) :
  contains x l = true ↔ PyStr x ∈ l.
Proof.
  unfold contains. induction l as [|obj l IH]; cbn [existsb].
  - split; [done|]. by intros ?%elem_of_nil.
  - rewrite orb_true_iff, IH, elem_of_cons.
    assert (eq_str obj x = true ↔ PyStr x = obj) as ->; [|done].
    destruct obj as [| | |s| |]; cbn [eq_str]; try (split; done).
    rewrite bool_decide_eq_true. split; [by intros ->|by intros [= ->]].
Qed.

(** X8: [on_config] raises [KeyError] for ['include_search_page'] when the
    theme has the variable ['search_index_only'] but not
    ['include_search_page'], and returns in every other case. *)
Theorem on_config_KeyError templates config :
  (is_Some (theme_vars (theme config) !! "search_index_only") →
   theme_vars (theme config) !! "include_search_page" = None →
   on_config templates config = KeyError "include_search_page")
  ∧ (theme_vars (theme config) !! "search_index_only" = None
     ∨ is_Some (theme_vars (theme config) !! "include_search_page") →
     ∃ config', on_config templates config = Returns config').
Proof.
  rewrite on_config_cases. cbn zeta. split.
  - intros [only ->] ->. done.
  - intros [->|[page ->]].
    + destruct (theme_vars (theme config) !! "include_search_page");
        by eexists.
    + destruct (theme_vars (theme config) !! "search_index_only");
        by eexists.
Qed.

Lemma on_config_KeyError_witness :
  on_config "/pkg/templates"
    {| theme := {| theme_vars := {[ "search_index_only" := PyBool false ]};
                   static_templates := ∅; dirs := [] |};
       extra_javascript := [] |}
  = KeyError "include_search_page"
  ∧ ∃ config', on_config "/pkg/templates"
                 {| theme := {| theme_vars := ∅; static_templates := ∅;
                                dirs := [] |};
                    extra_javascript := [] |}
               = Returns config'.
Proof.
  split.
  - apply on_config_KeyError.
    + exists (PyBool false). vm_compute. reflexivity.
    + vm_compute. reflexivity.
  - apply on_config_KeyError. left. vm_compute. reflexivity.
Defined.

(** X9: when [on_config] returns it has removed nothing: the variables of
    the theme are the same, the static templates grow by at most
    ['search.html'], the template directories and the scripts are
    extended at the end only; the script ['search/main.js'] is not added
    when it is already listed, and it is listed whenever the template
    directory was added. *)
Theorem on_config_extends templates config config' :
  on_config templates config = Returns config' →
  theme_vars (theme config') = theme_vars (theme config)
  ∧ static_templates (theme config) ⊆ static_templates (theme config')
  ∧ static_templates (theme config')
    ⊆ static_templates (theme config) ∪ {[ "search.html" ]}
  ∧ dirs (theme config) `prefix_of` dirs (theme config')
  ∧ extra_javascript config `prefix_of` extra_javascript config'
  ∧ (PyStr "search/main.js" ∈ extra_javascript config →
     extra_javascript config' = extra_javascript config)
  ∧ (dirs (theme config') ≠ dirs (theme config) →
     PyStr "search/main.js" ∈ extra_javascript config').
Proof.
  rewrite on_config_cases. cbn zeta. intros Hrun.
  set (add_page :=
         from_option truthy false
           (theme_vars (theme config) !! "include_search_page")) in Hrun.
  set (index_only :=
         bool_decide (is_Some (theme_vars (theme config) !! "search_index_only"))
         && add_page) in Hrun.
  assert (config' =
          {| theme :=
               {| theme_vars := theme_vars (theme config);
                  static_templates :=
                    if add_page
                    then static_templates (theme config) ∪ {[ "search.html" ]}
                    else static_templates (theme config);
                  dirs := if index_only then dirs (theme config)
                          else dirs (theme config) ++ [templates] |};
             extra_javascript :=
               if index_only
                  || contains "search/main.js" (extra_javascript config)
               then extra_javascript config
               else extra_javascript config ++ [PyStr "search/main.js"] |})
    as ->.
  { destruct (theme_vars (theme config) !! "include_search_page"),
      (theme_vars (theme config) !! "search_index_only");
      try discriminate Hrun; by injection Hrun as <-. }
  clearbody index_only. clearbody add_page.
  clear Hrun. cbn [theme theme_vars static_templates dirs extra_javascript].
  split; [done|]. split; [destruct add_page; set_solver|].
  split; [destruct add_page; set_solver|].
  split; [destruct index_only; [done|by apply prefix_app_r]|].
  destruct (contains "search/main.js" (extra_javascript config)) eqn:Hjs.
  - rewrite orb_true_r. split; [done|]. split; [done|].
    intros _. by apply contains_elem_of.
  - rewrite orb_false_r. split; [destruct index_only; [done|by apply prefix_app_r]|].
    split.
    + intros Hin%contains_elem_of. congruence.
    + destruct index_only; [done|]. intros _. set_solver.
Qed.

Lemma on_config_extends_witness :
  PyStr "search/main.js" ∈ [PyStr "js/base.js"; PyStr "search/main.js"].
Proof.
  pose (config :=
          {| theme := {| theme_vars := {[ "include_search_page" := PyBool false;
                                          "search_index_only" := PyBool false ]};
                         static_templates := {[ "404.html" ]};
                         dirs := ["/theme"] |};
             extra_javascript := [PyStr "js/base.js"] |}).
  pose (config' :=
          {| theme := {| theme_vars := theme_vars (theme config);
                         static_templates := {[ "404.html" ]};
                         dirs := ["/theme"; "/pkg/templates"] |};
             extra_javascript := [PyStr "js/base.js"; PyStr "search/main.js"] |}).
  destruct (on_config_extends "/pkg/templates" config config')
    as (_ & _ & _ & _ & _ & _ & Hmain).
  - vm_compute. reflexivity.
  - apply Hmain. discriminate.
Defined.

Ltac on_config_twice_case added :=
  eexists _, added; split; [reflexivity|];
  cbn [theme static_templates dirs extra_javascript orb];
  rewrite ?app_nil_r;
  repeat split; try done; try set_solver.

(** X10: [on_config] a second time, on the configuration it returned,
    returns again; it changes neither the static templates nor the
    scripts, but appends to the template directories once more what the
    first call appended. *)
Theorem on_config_twice templates config config' :
  on_config templates config = Returns config' →
  ∃ config'' added,
    on_config templates config' = Returns config''
    ∧ static_templates (theme config'') = static_templates (theme config')
    ∧ extra_javascript config'' = extra_javascript config'
    ∧ dirs (theme config') = dirs (theme config) ++ added
    ∧ dirs (theme config'') = dirs (theme config') ++ added.
Proof.
  rewrite (on_config_cases templates config'), on_config_cases. cbn zeta.
  destruct (theme_vars (theme config) !! "include_search_page") as [page|] eqn:Hp;
    destruct (theme_vars (theme config) !! "search_index_only") as [only|] eqn:Ho;
    try discriminate; intros [= <-];
    cbn [theme theme_vars static_templates dirs extra_javascript from_option];
    rewrite Hp, Ho; cbn [from_option];
    rewrite ?(bool_decide_eq_true_2 (is_Some (Some _))) by eauto;
    rewrite ?(bool_decide_eq_false_2 (is_Some None)) by (by intros [? ?]);
    cbn [andb orb].
  - destruct (truthy page); cbn [andb orb].
    + on_config_twice_case (@nil string).
    + destruct (contains "search/main.js" (extra_javascript config)) eqn:Hjs;
        rewrite ?Hjs, ?(proj2 (contains_elem_of "search/main.js" _))
          by set_solver;
        on_config_twice_case [templates].
  - destruct (truthy page);
      destruct (contains "search/main.js" (extra_javascript config)) eqn:Hjs;
      rewrite ?Hjs, ?(proj2 (contains_elem_of "search/main.js" _))
        by set_solver;
      on_config_twice_case [templates].
  - destruct (contains "search/main.js" (extra_javascript config)) eqn:Hjs;
      rewrite ?Hjs, ?(proj2 (contains_elem_of "search/main.js" _))
        by set_solver;
      on_config_twice_case [templates].
Qed.

Lemma on_config_twice_witness :
  ∃ config'' added,
    on_config "/pkg/templates"
      {| theme := {| theme_vars := ∅; static_templates := ∅;
                     dirs := ["/pkg/templates"] |};
         extra_javascript := [PyStr "search/main.js"] |}
    = Returns config''
    ∧ static_templates (theme config'') = ∅
    ∧ extra_javascript config'' = [PyStr "search/main.js"]
    ∧ ["/pkg/templates"] = [] ++ added
    ∧ dirs (theme config'') = ["/pkg/templates"] ++ added.
Proof.
  apply (on_config_twice "/pkg/templates"
           {| theme := {| theme_vars := ∅; static_templates := ∅; dirs := [] |};
              extra_javascript := [] |}).
  vm_compute. reflexivity.
Defined.

(** X11: [on_config] tests the presence of ['search_index_only'] in the
    theme and never its value: two configurations that differ only in the
    value of this variable have the same outcome and the same static
    templates, template directories and scripts. *)
Theorem on_config_ignores_value templates config v v' :
  outcome_map config_effects
    (on_config templates (with_theme_var "search_index_only" v config))
  = outcome_map config_effects
      (on_config templates (with_theme_var "search_index_only" v' config)).
Proof.
  rewrite !on_config_cases. cbn zeta. unfold with_theme_var.
  cbn [theme theme_vars static_templates dirs extra_javascript].
  rewrite !lookup_insert_eq, !lookup_insert_ne by done.
  by destruct (theme_vars (theme config) !! "include_search_page").
Qed.

(** * Examples *)

Example ex_de_zzz_jp :
  run_validation (disk lunr_language) (PyList [PyStr "de"; PyStr "zzz"; PyStr "jp"])
  = Ok [PyStr "de"; PyStr "jp"; PyStr "en"].
Proof. vm_compute. reflexivity. Qed.

Example ex_uk_ru :
  run_validation (disk lunr_language) (PyList [PyStr "uk"; PyStr "ru"])
  = Ok [PyStr "ru"; PyStr "ru"].
Proof. vm_compute. reflexivity. Qed.

Example ex_DE_fr :
  run_validation (disk lunr_language)
    (PyList [PyStr "DE"; PyStr "fr_FR"; PyStr "zz_de"; PyStr "en"])
  = Ok [PyStr "en"; PyStr "de"; PyStr "fr"; PyStr "de"].
Proof. vm_compute. reflexivity. Qed.
